(** * Grammer-Evaluator: the session history, the rating parser and the
      aggregates of [main.py], with the simpler evaluator of [code.py]

    The program is a Streamlit form around one call to a hosted language
    model.  What it computes itself is string work on the returned text
    (membership, [split], [strip], [float]) and a few list aggregates over the
    session history.  This file embeds that code and states what the
    specification says about it.

    Conventions of the embedding.
    - A Python [str] is a [string] holding the UTF-8 bytes of the text.  The
      separators the program searches for are ASCII, and searching for an
      ASCII string in UTF-8 text finds the same occurrences as searching the
      code points.
    - A Python [float] is a binary64 number, here a [spec_float] with
      precision 53 and maximal exponent 1024.
    - The language model and the clock are the outside world: a type [World]
      with a function that answers a call and one that reads the clock.
    - What the widgets draw is a list of [event]s.  Texts formatted from a
      number ([f"{rating}/10"], [f"{avg:.1f}/10"]) are kept as the number.
      Rules, captions, columns, spinners, the style sheet of the dark mode
      and the buttons inside the history rows draw nothing that the
      statements speak of and are left out.
    - [main.py] closes the prompt literal of [evaluate_text] on line 68 with
      two quotes where three are meant; the literal is read as ending there,
      as it does in [code.py]. *)

From Stdlib Require Import Strings.String Strings.Ascii Lists.List.
From Stdlib Require Import ZArith.ZArith NArith.NArith Bool.Bool micromega.Lia.
From Stdlib Require Import Floats.SpecFloat.
From Stdlib Require Import Sorting.Permutation Sorting.Sorted.
Import ListNotations.

Local Open Scope list_scope.
Local Open Scope string_scope.

(** ** Python's [str] operations used by the program *)

Module PyStr.

(** [s.startswith(p)] *)
Fixpoint startswith (p s : string) : bool :=
  match p, s with
  | EmptyString, _ => true
  | String _ _, EmptyString => false
  | String a p', String b s' => Ascii.eqb a b && startswith p' s'
  end.

(** [sub in s] *)
Fixpoint contains (sub s : string) : bool :=
  startswith sub s ||
  match s with
  | EmptyString => false
  | String _ s' => contains sub s'
  end.

(** [s.split(sep)] for a non-empty [sep]: the pieces between the
    occurrences of [sep], found from the left and not overlapping.  [skip]
    counts the characters of a separator that was just matched and is still
    to be passed over. *)
Fixpoint split_from (sep : string) (skip : nat) (s : string) : list string :=
  match s with
  | EmptyString => [EmptyString]
  | String c s' =>
      match skip with
      | S k => split_from sep k s'
      | O =>
          if startswith sep s
          then EmptyString :: split_from sep (String.length sep - 1) s'
          else match split_from sep 0 s' with
               | piece :: rest => String c piece :: rest
               | [] => [String c EmptyString]
               end
      end
  end.

Definition split (sep s : string) : list string := split_from sep 0 s.

Definition code (c : ascii) : N := N_of_ascii c.

(** Whitespace in the sense of [str.isspace], by UTF-8 encoding: the code
    points 9-13, 28-32, U+0085, U+00A0, U+1680, U+2000-U+200A, U+2028,
    U+2029, U+202F, U+205F and U+3000. *)
Definition space1 (c : ascii) : bool :=
  let n := code c in
  ((9 <=? n) && (n <=? 13) || (28 <=? n) && (n <=? 32))%N.

Definition space2 (c1 c2 : ascii) : bool :=
  ((code c1 =? 194) && ((code c2 =? 133) || (code c2 =? 160)))%N.

Definition space3 (c1 c2 c3 : ascii) : bool :=
  let n := code c3 in
  ((code c1 =? 225) && (code c2 =? 154) && (n =? 128)
   || (code c1 =? 226) && (code c2 =? 128)
      && ((128 <=? n) && (n <=? 138) || (n =? 168) || (n =? 169) || (n =? 175))
   || (code c1 =? 226) && (code c2 =? 129) && (n =? 159)
   || (code c1 =? 227) && (code c2 =? 128) && (n =? 128))%N.

(** [s.lstrip()] *)
Fixpoint lstrip (s : string) : string :=
  match s with
  | EmptyString => EmptyString
  | String c1 r1 =>
      if space1 c1 then lstrip r1 else
      match r1 with
      | EmptyString => s
      | String c2 r2 =>
          if space2 c1 c2 then lstrip r2 else
          match r2 with
          | EmptyString => s
          | String c3 r3 => if space3 c1 c2 c3 then lstrip r3 else s
          end
      end
  end.

(** [s.isspace()], except that it holds of the empty string *)
Fixpoint all_space (s : string) : bool :=
  match s with
  | EmptyString => true
  | String c1 r1 =>
      if space1 c1 then all_space r1 else
      match r1 with
      | EmptyString => false
      | String c2 r2 =>
          if space2 c1 c2 then all_space r2 else
          match r2 with
          | EmptyString => false
          | String c3 r3 => space3 c1 c2 c3 && all_space r3
          end
      end
  end.

(** [s.rstrip()] *)
Fixpoint rstrip (s : string) : string :=
  match s with
  | EmptyString => EmptyString
  | String c r => if all_space s then EmptyString else String c (rstrip r)
  end.

(** [s.strip()] *)
Definition strip (s : string) : string := rstrip (lstrip s).

(** The truth value of a string: it is not empty. *)
Definition truthy (s : string) : bool :=
  match s with
  | EmptyString => false
  | String _ _ => true
  end.

(** [all(p(c) for c in s)] *)
Fixpoint every (p : ascii -> bool) (s : string) : bool :=
  match s with
  | EmptyString => true
  | String c r => p c && every p r
  end.

End PyStr.

(** ** Python's [float]: binary64 numbers and [float(str)] *)

Module PyFloat.
Import PyStr.

Definition float : Type := spec_float.

Definition prec : Z := 53.
Definition emax : Z := 1024.

(** [float(n)] for an integer [n], rounded to nearest, ties to even *)
Definition of_Z (n : Z) : float := binary_normalize prec emax n 0 false.

Definition ltb (x y : float) : bool := SFltb x y.
Definition leb (x y : float) : bool := SFleb x y.
Definition add (x y : float) : float := SFadd prec emax x y.

(** [x / n] for a float [x] and an integer [n]: [None] stands for
    [ZeroDivisionError]. *)
Definition truediv (x : float) (n : Z) : option float :=
  if (n =? 0)%Z then None else Some (SFdiv prec emax x (of_Z n)).

(** [sum(xs)]: the accumulator starts from the integer 0 and the floats are
    added from the left.  (From CPython 3.12 on a correction term is added
    at the end; it vanishes whenever the partial sums are exact.) *)
Definition sum (xs : list float) : float := fold_left add xs (of_Z 0).

(** [max(xs)]: the first element, replaced by each later one that compares
    greater.  [None] stands for the [ValueError] on an empty list. *)
Definition max (xs : list float) : option float :=
  match xs with
  | [] => None
  | x :: rest => Some (fold_left (fun m y => if ltb m y then y else m) rest x)
  end.

(** The value [m * 10^k] of a decimal numeral, correctly rounded. *)
Definition of_decimal (neg : bool) (m k : Z) : float :=
  match (m * 10 ^ Z.max k 0)%Z with
  | Z0 => S754_zero neg
  | Zpos _ as num =>
      let '(q, e, l) :=
        SFdiv_core_binary prec emax num 0 (10 ^ Z.max (- k) 0)%Z 0 in
      binary_round_aux prec emax neg q e l
  | Zneg _ => S754_nan
  end.

(** *** The text of a number *)

Definition is_digit (c : ascii) : bool :=
  ((48 <=? code c) && (code c <=? 57))%N.

Definition digit_char (d : N) : ascii := ascii_of_N (48 + d).

(** Code points that [str.isspace] accepts, outside ASCII *)
Definition isspace_cp (n : N) : bool :=
  ((n =? 133) || (n =? 160) || (n =? 5760)
   || (8192 <=? n) && (n <=? 8202)
   || (n =? 8232) || (n =? 8233) || (n =? 8239) || (n =? 8287)
   || (n =? 12288))%N.

(** The zero of every run of ten decimal digits outside ASCII (Unicode
    14.0, the tables of CPython 3.11) *)
Definition decimal_zeros : list N :=
  [1632; 1776; 1984; 2406; 2534; 2662; 2790; 2918; 3046; 3174; 3302; 3430;
   3558; 3664; 3792; 3872; 4160; 4240; 6112; 6160; 6470; 6608; 6784; 6800;
   6992; 7088; 7232; 7248; 42528; 43216; 43264; 43472; 43504; 43600; 44016;
   65296; 66720; 68912; 69734; 69872; 69942; 70096; 70384; 70736; 70864;
   71248; 71360; 71472; 71904; 72016; 72784; 73040; 73120; 92768; 92864;
   93008; 120782; 120792; 120802; 120812; 120822; 123200; 123632; 125264;
   130032]%N.

Definition decimal_of_cp (n : N) : option N :=
  match find (fun z => (z <=? n) && (n <? z + 10))%N decimal_zeros with
  | Some z => Some (n - z)%N
  | None => None
  end.

(** One code point outside ASCII becomes a space, an ASCII digit, or makes
    the conversion fail. *)
Definition ascii_of_cp (n : N) (rest : option string) : option string :=
  if isspace_cp n then option_map (String " ") rest
  else match decimal_of_cp n with
       | Some d => option_map (String (digit_char d)) rest
       | None => None
       end.

Definition cont (c : ascii) : N := (code c mod 64)%N.

(** Spaces and decimal digits of other scripts are replaced by their ASCII
    counterparts; [None] when the text holds any other character outside
    ASCII.  The text is read as well-formed UTF-8. *)
Fixpoint to_ascii (s : string) : option string :=
  match s with
  | EmptyString => Some EmptyString
  | String c1 r1 =>
      if (code c1 <? 128)%N then option_map (String c1) (to_ascii r1) else
      match r1 with
      | EmptyString => None
      | String c2 r2 =>
          if (code c1 <? 224)%N
          then ascii_of_cp ((code c1 mod 32) * 64 + cont c2)%N (to_ascii r2)
          else
          match r2 with
          | EmptyString => None
          | String c3 r3 =>
              if (code c1 <? 240)%N
              then ascii_of_cp
                     (((code c1 mod 16) * 64 + cont c2) * 64 + cont c3)%N
                     (to_ascii r3)
              else
              match r3 with
              | EmptyString => None
              | String c4 r4 =>
                  ascii_of_cp
                    ((((code c1 mod 8) * 64 + cont c2) * 64 + cont c3) * 64
                     + cont c4)%N
                    (to_ascii r4)
              end
          end
      end
  end.

(** The C locale's [isspace]: 9-13 and 32 *)
Definition c_space (c : ascii) : bool :=
  ((9 <=? code c) && (code c <=? 13) || (code c =? 32))%N.

Fixpoint c_lstrip (s : string) : string :=
  match s with
  | EmptyString => EmptyString
  | String c r => if c_space c then c_lstrip r else s
  end.

Fixpoint c_all_space (s : string) : bool :=
  match s with
  | EmptyString => true
  | String c r => c_space c && c_all_space r
  end.

Fixpoint c_rstrip (s : string) : string :=
  match s with
  | EmptyString => EmptyString
  | String c r => if c_all_space s then EmptyString else String c (c_rstrip r)
  end.

Definition is_underscore (c : ascii) : bool := (code c =? 95)%N.

(** Underscores are dropped; one that does not stand between two digits
    makes the conversion fail.  [prev] is the character before [s]. *)
Fixpoint drop_underscores (prev : ascii) (s : string) : option string :=
  match s with
  | EmptyString => if is_underscore prev then None else Some EmptyString
  | String c r =>
      if is_underscore c
      then if is_digit prev then drop_underscores c r else None
      else if is_underscore prev && negb (is_digit c) then None
           else option_map (String c) (drop_underscores c r)
  end.

(** The longest prefix of digits, and what follows it *)
Fixpoint span_digits (s : string) : string * string :=
  match s with
  | EmptyString => (EmptyString, EmptyString)
  | String c r =>
      if is_digit c
      then let '(ds, rest) := span_digits r in (String c ds, rest)
      else (EmptyString, s)
  end.

Fixpoint digits_value (acc : Z) (ds : string) : Z :=
  match ds with
  | EmptyString => acc
  | String c r => digits_value (10 * acc + Z.of_N (code c - 48)) r
  end.

Definition is_e (c : ascii) : bool := ((code c =? 101) || (code c =? 69))%N.

(** A leading sign: whether it is a minus, and what follows it *)
Definition take_sign (s : string) : bool * string :=
  match s with
  | String c r =>
      if (code c =? 45)%N then (true, r)
      else if (code c =? 43)%N then (false, r)
      else (false, s)
  | EmptyString => (false, s)
  end.

(** What may follow the mantissa: nothing, or an exponent *)
Definition parse_exponent (s : string) : option Z :=
  match s with
  | EmptyString => Some 0%Z
  | String c r =>
      if is_e c then
        let '(neg, r') := take_sign r in
        let '(ds, rest) := span_digits r' in
        if truthy ds && negb (truthy rest)
        then Some (if neg then - digits_value 0 ds else digits_value 0 ds)%Z
        else None
      else None
  end.

(** Digits with an optional point and exponent: the digits as an integer,
    and the power of ten that scales it *)
Definition parse_number (s : string) : option (Z * Z) :=
  let '(int_part, r1) := span_digits s in
  let '(frac_part, r2) :=
    match r1 with
    | String c r => if (code c =? 46)%N then span_digits r else (EmptyString, r1)
    | EmptyString => (EmptyString, r1)
    end in
  if truthy int_part || truthy frac_part then
    match parse_exponent r2 with
    | Some e =>
        Some (digits_value 0 (int_part ++ frac_part),
              (e - Z.of_nat (String.length frac_part))%Z)
    | None => None
    end
  else None.

Definition lower (c : ascii) : ascii :=
  if ((65 <=? code c) && (code c <=? 90))%N
  then ascii_of_N (code c + 32) else c.

Fixpoint lowercase (s : string) : string :=
  match s with
  | EmptyString => EmptyString
  | String c r => String (lower c) (lowercase r)
  end.

(** An optional sign, then a number, an infinity or a NaN *)
Definition parse_float (s : string) : option float :=
  let '(neg, body) := take_sign s in
  match parse_number body with
  | Some (m, k) => Some (of_decimal neg m k)
  | None =>
      let w := lowercase body in
      if String.eqb w "inf" || String.eqb w "infinity"
      then Some (S754_infinity neg)
      else if String.eqb w "nan" then Some S754_nan
      else None
  end.

(** [float(s)]; [None] stands for [ValueError]. *)
Definition of_string (s : string) : option float :=
  match to_ascii s with
  | None => None
  | Some a =>
      match drop_underscores "000" (c_rstrip (c_lstrip a)) with
      | None => None
      | Some t => parse_float t
      end
  end.

End PyFloat.

(** ** The data model of [main.py] *)

(** One entry of [st.session_state.history]: the dictionary built on lines
    75-80. *)
Record EvaluationRecord : Type := {
  timestamp : string;
  original : string;
  feedback : string;
  model : string
}.

(** The keys of [st.session_state].  [last_feedback] and [last_text] are
    absent until the first analysis. *)
Record session_state : Type := {
  history : list EvaluationRecord;
  selected_model : string;
  dark_mode : bool;
  feedback_level : string;
  last_feedback : option string;
  last_text : option string
}.

(** The exceptions that the modelled code can meet. *)
Inductive exn : Type :=
| IndexError
| KeyError (key : string)
| ZeroDivisionError
| ValueError.

(** What the remote model does with one request: it returns the text of a
    response, or the client library raises an exception [e] (an instance of
    [Exception]), of which [str(e)] is kept. *)
Inductive outcome : Type :=
| Returned (text : string)
| Raised (str_e : string).

(** The value a metric widget shows *)
Inductive metric_value : Type :=
| out_of_ten (x : PyFloat.float)
| count (n : nat).

(** What the program does that can be observed from outside: requests to the
    model and calls of the Streamlit widgets. *)
Inductive event : Type :=
| generate (model_name prompt : string)
| st_warning (body : string)
| st_info (body : string)
| st_success (body : string)
| st_subheader (body : string)
| st_metric (label : string) (value : metric_value)
| st_progress (value : PyFloat.float)
| st_progress_bar (done total : nat)
| st_markdown_color (color : string)
| st_expander_write (label body : string)
| st_history_row (idx : nat) (row : EvaluationRecord)
| st_dataframe (rows : list (string * string))
| st_line_chart (ratings : list PyFloat.float)
| st_rerun.

(** The outside world: the state of the service and of the clock, the answer
    to [GenerativeModel(model_name).generate_content(prompt)] followed by
    [response.text], the reading of
    [datetime.now().strftime("%Y-%m-%d %H:%M:%S")], and whether [st.progress]
    takes a value or raises (Streamlit rejects values outside its range). *)
Class Outside : Type := {
  World : Type;
  generate_content : string -> string -> World -> outcome * World;
  datetime_now : World -> string;
  st_progress_accepts : PyFloat.float -> bool
}.

(** The session, the world around it and everything observed so far *)
Record machine `{Outside} : Type := {
  world : World;
  session : session_state;
  screen : list event
}.

(** ** Constants *)

Definition nl : string := String "010" EmptyString.
Definition dq : string := String "034" EmptyString.

(** A text given by its lines *)
Definition unlines (lines : list string) : string := String.concat nl lines.

Definition EVALUATION_CRITERIA : string :=
  unlines
    [ "";
      "Evaluate the given text based on these 14 rules:";
      "1. Avoid statements referring to the past instead of the present.";
      "2. Avoid factual statements or those that could be interpreted as such.";
      "3. Avoid ambiguity and ensure clarity in meaning.";
      "4. Ensure relevance to the intended topic or psychological object.";
      "5. Avoid statements that would be universally accepted or rejected.";
      "6. Cover the full range of the effective scale of interest.";
      "7. Use simple, clear, and direct language.";
      "8. Keep statements short (preferably under 20 words).";
      "9. Each statement should express only one complete thought.";
      "10. Avoid universal terms such as all, always, none, and never.";
      "11. Use words like only, just, merely with caution.";
      "12. Prefer simple sentences over complex or compound ones.";
      "13. Avoid jargon or words that may confuse the target audience.";
      "14. Eliminate double negatives.";
      "" ].

(** [MODEL_OPTIONS]: label of the select box, identifier of the model *)
Definition MODEL_OPTIONS : list (string * string) :=
  [ ("Gemini 1.5 Flash (Fast)", "gemini-1.5-flash");
    ("Gemini 1.5 Pro (Balanced)", "gemini-1.5-pro");
    ("Gemini 1.0 Pro (Legacy)", "gemini-pro") ].

(** [d[key]] on a dictionary given by its items *)
Fixpoint getitem (d : list (string * string)) (key : string) : option string :=
  match d with
  | [] => None
  | (k, v) :: rest => if String.eqb k key then Some v else getitem rest key
  end.

(** The prompt of [main.py] (lines 50-68) *)
Definition main_prompt (text feedback_level : string) : string :=
  unlines
    [ "";
      "    You are an AI assistant skilled in grammar correction and structural refinement.";
      "    Analyze the following text based on the 14 rules and provide:";
      "    - A brief summary of errors found.";
      "    - A revised version of the sentence with corrections.";
      "    - A rating from 1-10 based on how well it follows the criteria.";
      "";
      "    **Text to Evaluate:**";
      "    " ++ dq ++ text ++ dq;
      "";
      "    **Evaluation Criteria:**";
      "    " ++ EVALUATION_CRITERIA;
      "";
      "    **Response Format (" ++ feedback_level ++ " feedback):**";
      "    - Overall Rating: X/10";
      "    - Identified Issues: (list of issues)";
      "    - Suggested Improvements: (specific suggestions)";
      "    - Corrected Version: (revised sentence)";
      "    " ].

(** The prompt of [code.py] (lines 35-50) *)
Definition simple_prompt (text : string) : string :=
  unlines
    [ "";
      "    You are an AI assistant skilled in grammar correction and structural refinement.";
      "    Analyze the following text based on the 14 rules and provide:";
      "    - A brief summary of errors found.";
      "    - A revised version of the sentence with corrections.";
      "";
      "    **Text to Evaluate:**";
      "    " ++ dq ++ text ++ dq;
      "";
      "    **Evaluation Criteria:**";
      "    " ++ EVALUATION_CRITERIA;
      "";
      "    **Expected Response:**";
      "    - Identified issues (if any).";
      "    - Corrected sentence.";
      "    " ].

(** The text returned when the call fails (line 84, and line 58 of
    [code.py]) *)
Definition error_text (str_e : string) : string :=
  "⚠️ Error processing request: " ++ str_e.

(** ** The program *)

Section Program.
Context `{Outside}.
Import PyStr.

Definition emit (e : event) (m : machine) : machine :=
  {| world := world m; session := session m; screen := (screen m ++ [e])%list |}.

Definition emit_all (es : list event) (m : machine) : machine :=
  {| world := world m; session := session m; screen := (screen m ++ es)%list |}.

Definition set_world (w : World) (m : machine) : machine :=
  {| world := w; session := session m; screen := screen m |}.

Definition set_session (s : session_state) (m : machine) : machine :=
  {| world := world m; session := s; screen := screen m |}.

(** [st.session_state.history.append(item)] *)
Definition history_append (item : EvaluationRecord) (s : session_state)
  : session_state :=
  {| history := (history s ++ [item])%list;
     selected_model := selected_model s;
     dark_mode := dark_mode s;
     feedback_level := feedback_level s;
     last_feedback := last_feedback s;
     last_text := last_text s |}.

(** [st.session_state.history.clear()] *)
Definition history_clear (s : session_state) : session_state :=
  {| history := [];
     selected_model := selected_model s;
     dark_mode := dark_mode s;
     feedback_level := feedback_level s;
     last_feedback := last_feedback s;
     last_text := last_text s |}.

Definition set_last (fb text : string) (s : session_state) : session_state :=
  {| history := history s;
     selected_model := selected_model s;
     dark_mode := dark_mode s;
     feedback_level := feedback_level s;
     last_feedback := Some fb;
     last_text := Some text |}.

(** The three widgets of the side bar that store their value *)
Definition set_selected_model (label : string) (s : session_state)
  : session_state :=
  {| history := history s;
     selected_model := label;
     dark_mode := dark_mode s;
     feedback_level := feedback_level s;
     last_feedback := last_feedback s;
     last_text := last_text s |}.

Definition set_feedback_level (level : string) (s : session_state)
  : session_state :=
  {| history := history s;
     selected_model := selected_model s;
     dark_mode := dark_mode s;
     feedback_level := level;
     last_feedback := last_feedback s;
     last_text := last_text s |}.

Definition set_dark_mode (on : bool) (s : session_state) : session_state :=
  {| history := history s;
     selected_model := selected_model s;
     dark_mode := on;
     feedback_level := feedback_level s;
     last_feedback := last_feedback s;
     last_text := last_text s |}.

(** [evaluate_text] of [main.py] (lines 49-84).  Everything between the
    call and the [return] sits in the [try]; the handler only builds the
    error text. *)
Definition evaluate_text (text model_name feedback_level : string)
           (m : machine) : string * machine :=
  let prompt := main_prompt text feedback_level in
  let m1 := emit (generate model_name prompt) m in
  match generate_content model_name prompt (world m1) with
  | (Returned response_text, w) =>
      let m2 := set_world w m1 in
      let item := {| timestamp := datetime_now w;
                     original := text;
                     feedback := response_text;
                     model := model_name |} in
      (strip response_text,
       set_session (history_append item (session m2)) m2)
  | (Raised str_e, w) => (error_text str_e, set_world w m1)
  end.

(** [evaluate_text] of [code.py] (lines 34-58): no history, one fixed
    model *)
Definition simple_evaluate_text (text : string) (m : machine)
  : string * machine :=
  let prompt := simple_prompt text in
  let m1 := emit (generate "gemini-1.5-flash" prompt) m in
  match generate_content "gemini-1.5-flash" prompt (world m1) with
  | (Returned response_text, w) => (strip response_text, set_world w m1)
  | (Raised str_e, w) => (error_text str_e, set_world w m1)
  end.

(** [l[i]] for an index from 0 on; [None] stands for [IndexError]. *)
Definition subscript {A : Type} (l : list A) (i : nat) : option A := nth_error l i.

(** [feedback.split("Overall Rating:")[1].split("\n")[0].strip()]
    (lines 88 and 291); [None] stands for [IndexError]. *)
Definition rating_part (fb : string) : option string :=
  match subscript (split "Overall Rating:" fb) 1 with
  | None => None
  | Some after =>
      match subscript (split nl after) 0 with
      | None => None
      | Some line => Some (strip line)
      end
  end.

(** [float(rating_part.split("/")[0])] (lines 90 and 292); [None] stands
    for the exception raised. *)
Definition parse_rating (part : string) : option PyFloat.float :=
  match subscript (split "/" part) 0 with
  | None => None
  | Some token => PyFloat.of_string token
  end.

(** The colour of line 95 *)
Definition color (rating : PyFloat.float) : string :=
  if PyFloat.ltb rating (PyFloat.of_Z 4) then "red"
  else if PyFloat.ltb rating (PyFloat.of_Z 7) then "orange"
  else "green".

(** The body of the [try] of [display_feedback] (lines 90-104) after line 90
    gave [parsed]: what it draws before it ends or an exception stops it. *)
Definition rating_widgets (parsed : option PyFloat.float) : list event :=
  match parsed with
  | None => []
  | Some rating =>
      st_metric "Overall Rating" (out_of_ten rating) ::
      match PyFloat.truediv rating 10 with
      | None => []
      | Some progress =>
          if st_progress_accepts progress
          then [st_progress progress; st_markdown_color (color rating)]
          else []
      end
  end.

(** [display_feedback] (lines 86-109): what is drawn, and the exception
    that leaves the function, if any.  Line 88 stands before the [try]. *)
Definition display_feedback (fb : string) : list event * option exn :=
  if contains "Overall Rating" fb then
    match rating_part fb with
    | None => ([], Some IndexError)
    | Some part =>
        ((rating_widgets (parse_rating part)
          ++ [st_expander_write "📝 Detailed Feedback" fb])%list,
         None)
    end
  else ([st_expander_write "📝 Detailed Feedback" fb], None).

(** [history_df.sort_values("timestamp", ascending=False)]: the rows with
    their index, latest first.  Rows of equal time stamp keep their order
    here; pandas leaves it open. *)
Fixpoint insert_row (r : nat * EvaluationRecord)
         (rows : list (nat * EvaluationRecord)) : list (nat * EvaluationRecord) :=
  match rows with
  | [] => [r]
  | r' :: rest =>
      if String.leb (timestamp (snd r')) (timestamp (snd r))
      then r :: rows
      else r' :: insert_row r rest
  end.

Definition sort_values (h : list EvaluationRecord) : list (nat * EvaluationRecord) :=
  fold_right insert_row [] (combine (seq 0 (List.length h)) h).

(** [show_history] (lines 111-130) *)
Definition show_history (s : session_state) : list event :=
  match history s with
  | [] => [st_info "No evaluation history yet. Analyze some text to see it here."]
  | _ :: _ =>
      st_subheader "📜 Evaluation History" ::
      map (fun r => st_history_row (fst r) (snd r)) (sort_values (history s))
  end.

(** The rating that lines 289-292 read from a feedback text, if any.  Here
    the whole extraction sits in the [try], whose handler goes on to the
    next item. *)
Definition feedback_rating (fb : string) : option PyFloat.float :=
  if contains "Overall Rating" fb then
    match rating_part fb with
    | None => None
    | Some part => parse_rating part
    end
  else None.

(** One turn of the loop of lines 288-295 *)
Definition item_rating (item : EvaluationRecord) : option PyFloat.float :=
  feedback_rating (feedback item).

(** [ratings] after the loop *)
Fixpoint collect_ratings (h : list EvaluationRecord) : list PyFloat.float :=
  match h with
  | [] => []
  | item :: rest =>
      match item_rating item with
      | Some rating => rating :: collect_ratings rest
      | None => collect_ratings rest
      end
  end.

(** Lines 297-311 *)
Definition performance_metrics (h : list EvaluationRecord)
  : list event * option exn :=
  let ratings := collect_ratings h in
  match ratings with
  | [] => ([st_info "No rating data available in history"], None)
  | _ :: _ =>
      match PyFloat.truediv (PyFloat.sum ratings) (Z.of_nat (List.length ratings)) with
      | None => ([], Some ZeroDivisionError)
      | Some avg_rating =>
          match PyFloat.max ratings with
          | None =>
              ([st_metric "Total Evaluations" (count (List.length h));
                st_metric "Average Rating" (out_of_ten avg_rating)],
               Some ValueError)
          | Some best =>
              ([st_metric "Total Evaluations" (count (List.length h));
                st_metric "Average Rating" (out_of_ten avg_rating);
                st_metric "Best Rating" (out_of_ten best);
                st_line_chart ratings],
               None)
          end
      end
  end.

(** The third tab (lines 278-311) *)
Definition tab3 (s : session_state) : list event * option exn :=
  match history s with
  | [] => (show_history s, None)
  | _ :: _ =>
      let '(drawn, e) := performance_metrics (history s) in
      ((show_history s ++ st_subheader "📈 Performance Metrics" :: drawn)%list, e)
  end.

(** The results column of the first tab (lines 231-236) *)
Definition tab1_results (s : session_state) : list event * option exn :=
  match last_feedback s with
  | Some fb =>
      let '(drawn, e) := display_feedback fb in
      (st_subheader "📊 Evaluation Results" :: drawn, e)
  | None => ([st_info "💡 Enter some text and click 'Analyze' to see feedback here"], None)
  end.

(** The button of the first tab (lines 211-224) *)
Definition analyze_text (user_text : string) (m : machine)
  : machine * option exn :=
  if truthy (strip user_text) then
    match getitem MODEL_OPTIONS (selected_model (session m)) with
    | None => (m, Some (KeyError (selected_model (session m))))
    | Some model_name =>
        let '(fb, m1) :=
          evaluate_text user_text model_name (feedback_level (session m)) m in
        (emit st_rerun (set_session (set_last fb user_text (session m1)) m1), None)
    end
  else
    (emit (st_warning "⚠️ Please enter text before clicking 'Analyze Text'.") m, None).

(** Line 260 *)
Definition sentences_of (batch_text : string) : list string :=
  map strip (filter (fun s => truthy (strip s)) (split nl batch_text)).

(** The loop of lines 264-271; [i] is the index of the first sentence of
    [sentences], [total] the number of all of them. *)
Fixpoint batch_loop (total i : nat) (sentences : list string)
         (results : list (string * string)) (m : machine)
  : machine * (exn + list (string * string)) :=
  match sentences with
  | [] => (m, inr results)
  | sentence :: rest =>
      let m1 := emit (st_progress_bar (i + 1) total) m in
      match getitem MODEL_OPTIONS (selected_model (session m1)) with
      | None => (m1, inl (KeyError (selected_model (session m1))))
      | Some model_name =>
          let '(fb, m2) := evaluate_text sentence model_name "Concise" m1 in
          batch_loop total (S i) rest (results ++ [(sentence, fb)])%list m2
      end
  end.

(** The button of the second tab (lines 258-276) *)
Definition batch_analyze (batch_text : string) (m : machine)
  : machine * option exn :=
  if truthy (strip batch_text) then
    let sentences := sentences_of batch_text in
    let m1 := emit (st_progress_bar 0 (List.length sentences)) m in
    match batch_loop (List.length sentences) 0 sentences [] m1 with
    | (m2, inl e) => (m2, Some e)
    | (m2, inr results) =>
        (emit_all [st_success "✅ Analysis complete!"; st_dataframe results] m2, None)
    end
  else (emit (st_warning "Please enter some text to analyze") m, None).

(** The button of the side bar (line 168) *)
Definition clear_history (m : machine) : machine :=
  set_session (history_clear (session m)) m.

(** What the user can do to the session *)
Inductive action : Type :=
| click_analyze (user_text : string)
| click_analyze_all (batch_text : string)
| click_clear_history
| choose_model (label : string)
| choose_feedback_level (level : string)
| toggle_dark_mode (on : bool).

Definition step (a : action) (m : machine) : machine :=
  match a with
  | click_analyze user_text => fst (analyze_text user_text m)
  | click_analyze_all batch_text => fst (batch_analyze batch_text m)
  | click_clear_history => clear_history m
  | choose_model label => set_session (set_selected_model label (session m)) m
  | choose_feedback_level level => set_session (set_feedback_level level (session m)) m
  | toggle_dark_mode on => set_session (set_dark_mode on (session m)) m
  end.

End Program.

(** ** Vocabulary of the statements *)




Definition is_generate (e : event) : bool :=
  match e with
  | generate _ _ => true
  | _ => false
  end.

Definition is_metric (e : event) : bool :=
  match e with
  | st_metric _ _ => true
  | _ => false
  end.

(** The requests sent to the model, among the events *)
Definition requests (es : list event) : list event := filter is_generate es.

(** The range of [st.progress] for a float *)
Definition unit_range (x : PyFloat.float) : bool :=
  PyFloat.leb (PyFloat.of_Z 0) x && PyFloat.leb x (PyFloat.of_Z 1).

(** A world whose service gives the same outcome to every request; its state
    counts the requests. *)
Definition constant_outside (o : outcome) : Outside :=
  {| World := nat;
     generate_content := fun _ _ w => (o, S w);
     datetime_now := fun _ => "2025-01-01 12:00:00";
     st_progress_accepts := unit_range |}.

(** The session after the side bar has run for the first time *)
Definition initial_session : session_state :=
  {| history := [];
     selected_model := "Gemini 1.5 Flash (Fast)";
     dark_mode := false;
     feedback_level := "Detailed";
     last_feedback := None;
     last_text := None |}.

Definition initial_machine (O : Outside) (w : World) : machine :=
  {| world := w; session := initial_session; screen := [] |}.

Definition record_of (ts text fb model_name : string) : EvaluationRecord :=
  {| timestamp := ts; original := text; feedback := fb; model := model_name |}.

(** Two sample worlds: a service out of quota, and one that answers with a
    rated feedback wrapped in white space *)
Definition failing : Outside := constant_outside (Raised "quota exceeded").

Definition answer : string :=
  " - Overall Rating: 7/10" ++ nl ++ " - Identified Issues: none" ++ nl.

Definition answering : Outside := constant_outside (Returned answer).

(** A world whose service answers and whose clock is set back after the
    first request: [datetime.now()] reads the local time, which goes from
    02:59:59 back to 02:00:00 when daylight saving time ends. *)
Definition falling_back : Outside :=
  {| World := nat;
     generate_content := fun _ _ w => (Returned answer, S w);
     datetime_now := fun w =>
                       match w with
                       | 0 | 1 => "2025-10-26 02:30:00"
                       | _ => "2025-10-26 02:10:00"
                       end;
     st_progress_accepts := unit_range |}.

(** A history of three records: rated 3, without a rating, rated 9 *)
Definition rated_3 : EvaluationRecord :=
  record_of "2025-01-01 12:00:00" "first" "Overall Rating: 3/10" "gemini-pro".

Definition unrated : EvaluationRecord :=
  record_of "2025-01-01 12:00:01" "second" "The text is fine." "gemini-pro".

Definition rated_9 : EvaluationRecord :=
  record_of "2025-01-01 12:00:02" "third" "Overall Rating: 9/10" "gemini-pro".

(** Each sentence evaluated in turn by [evaluate_text] at the "Concise" level,
    in the words of the specification of the batch mode: the pairs of
    sentence and feedback, and the machine at the end.  To be compared with
    [batch_loop]. *)
Fixpoint evaluate_each `{Outside} (total i : nat) (model_name : string)
         (sentences : list string) (m : machine)
  : list (string * string) * machine :=
  match sentences with
  | [] => ([], m)
  | sentence :: rest =>
      let '(fb, m1) :=
        evaluate_text sentence model_name "Concise"
                      (emit (st_progress_bar (i + 1) total) m) in
      let '(rows, m2) := evaluate_each total (S i) model_name rest m1 in
      ((sentence, fb) :: rows, m2)
  end.

(** No record of [h] bears a time stamp later than [ts]. *)
Definition none_later (ts : string) (h : list EvaluationRecord) : bool :=
  forallb (fun r => String.leb (timestamp r) ts) h.

(** The time stamps of [h] never decrease. *)
Fixpoint chronological (h : list EvaluationRecord) : bool :=
  match h with
  | [] => true
  | r :: rest =>
      forallb (fun r' => String.leb (timestamp r) (timestamp r')) rest
      && chronological rest
  end.

(** ** The scripts from top to bottom *)

(** [st.session_state] between two runs of the script: any key may be
    absent. *)
Record stored_state : Type := {
  stored_history : option (list EvaluationRecord);
  stored_selected_model : option string;
  stored_dark_mode : option bool;
  stored_feedback_level : option string;
  stored_last_feedback : option string;
  stored_last_text : option string
}.

(** The state of a fresh session *)
Definition empty_store : stored_state :=
  {| stored_history := None;
     stored_selected_model := None;
     stored_dark_mode := None;
     stored_feedback_level := None;
     stored_last_feedback := None;
     stored_last_text := None |}.

(** The state a run leaves behind *)
Definition store (s : session_state) : stored_state :=
  {| stored_history := Some (history s);
     stored_selected_model := Some (selected_model s);
     stored_dark_mode := Some (dark_mode s);
     stored_feedback_level := Some (feedback_level s);
     stored_last_feedback := last_feedback s;
     stored_last_text := last_text s |}.

Definition or_default {A : Type} (stored : option A) (default : A) : A :=
  match stored with
  | Some value => value
  | None => default
  end.

(** Lines 40-47 of [main.py]: every key that is absent gets its default. *)
Definition init_session_state (st : stored_state) : session_state :=
  {| history := or_default (stored_history st) [];
     selected_model := or_default (stored_selected_model st) "gemini-1.5-flash";
     dark_mode := or_default (stored_dark_mode st) false;
     feedback_level := or_default (stored_feedback_level st) "Detailed";
     last_feedback := stored_last_feedback st;
     last_text := stored_last_text st |}.

(** What the environment and the widgets give to one run of [main.py]: the
    value of [GEMINI_API_KEY], the values of the select box, of the radio
    buttons and of the toggle of the side bar, the two text areas and
    whether their buttons were clicked.  The two sliders are read and never
    used.  The callback of the clear button runs before the script and is
    the action [clear_history]. *)
Record inputs : Type := {
  api_key : option string;
  model_choice : string;
  level_choice : string;
  dark_choice : bool;
  user_text : string;
  analyze_clicked : bool;
  batch_text : string;
  batch_clicked : bool
}.

(** How a run ends once it has started: [st.rerun()] stops it, an exception
    leaves it, or it reaches its last line. *)
Inductive ending : Type :=
| rerun_asked
| raised (e : exn)
| finished.

(** The text of line 11 of [main.py] and line 8 of [code.py] *)
Definition missing_key_error : string :=
  "❌ API Key is missing! Set GEMINI_API_KEY in your environment variables.".

(** [not API_KEY] holds of an absent and of an empty value. *)
Definition key_missing (key : option string) : bool :=
  match key with
  | None => true
  | Some value => negb (PyStr.truthy value)
  end.

Section Scripts.
Context `{Outside}.
Import PyStr.

(** A run of [main.py]: stopped on lines 10-12 with the error shown, or run,
    with the machine it leaves, the caption of line 229 if it was drawn, and
    its ending. *)
Inductive script_result : Type :=
| halted (error : string)
| ran (m : machine) (caption : option string) (how : ending).

(** Lines 227-229: the time stamp of the last record *)
Definition last_evaluated (s : session_state) : option string :=
  match history s with
  | [] => None
  | item :: rest => Some ("Last evaluated: " ++ timestamp (List.last rest item))
  end.

(** Lines 248-311: the second and the third tab *)
Definition tabs_2_3 (i : inputs) (caption : option string) (m : machine)
  : script_result :=
  match (if batch_clicked i then batch_analyze (batch_text i) m else (m, None)) with
  | (m1, Some e) => ran m1 caption (raised e)
  | (m1, None) =>
      let '(drawn, e) := tab3 (session m1) in
      ran (emit_all drawn m1) caption
          match e with
          | Some e' => raised e'
          | None => finished
          end
  end.

(** Lines 198-246, then the rest: the first tab.  After its button has
    evaluated a text, [st.rerun()] ends the run. *)
Definition tabs (i : inputs) (m : machine) : script_result :=
  match (if analyze_clicked i then analyze_text (user_text i) m else (m, None)) with
  | (m1, Some e) => ran m1 None (raised e)
  | (m1, None) =>
      if analyze_clicked i && truthy (strip (user_text i))
      then ran m1 None rerun_asked
      else
        let caption := last_evaluated (session m1) in
        match tab1_results (session m1) with
        | (drawn, Some e) => ran (emit_all drawn m1) caption (raised e)
        | (drawn, None) => tabs_2_3 i caption (emit_all drawn m1)
        end
  end.

(** [main.py] from its first line to its last, on the state left by the run
    before, in a world [w] and below what was observed so far *)
Definition script_run (i : inputs) (st : stored_state) (w : World)
           (seen : list event) : script_result :=
  if key_missing (api_key i) then halted missing_key_error
  else
    let s := set_dark_mode (dark_choice i)
               (set_feedback_level (level_choice i)
                  (set_selected_model (model_choice i) (init_session_state st))) in
    tabs i {| world := w; session := s; screen := seen |}.

(** What a run of [code.py] shows *)
Inductive simple_page : Type :=
| simple_halted (error : string)
| simple_idle
| simple_warning (body : string)
| simple_feedback (heading body : string).

(** [code.py] from its first line to its last *)
Definition simple_script (key : option string) (text : string) (clicked : bool)
           (m : machine) : simple_page * machine :=
  if key_missing key then (simple_halted missing_key_error, m)
  else if clicked then
    if truthy (strip text) then
      let '(fb, m1) := simple_evaluate_text text m in
      (simple_feedback "✅ Feedback & Suggestions:" fb, m1)
    else
      (simple_warning "⚠️ Please enter text before clicking 'Analyze Text'.", m)
  else (simple_idle, m).

End Scripts.

(** A feedback text on which line 88 raises: it holds "Overall Rating" but
    not "Overall Rating:". *)
Definition marker_without_colon (fb : string) : bool :=
  PyStr.contains "Overall Rating" fb && negb (PyStr.contains "Overall Rating:" fb).


(** The same inputs in an environment that does not set [GEMINI_API_KEY] *)
Definition without_key (i : inputs) : inputs :=
  {| api_key := None;
     model_choice := model_choice i;
     level_choice := level_choice i;
     dark_choice := dark_choice i;
     user_text := user_text i;
     analyze_clicked := analyze_clicked i;
     batch_text := batch_text i;
     batch_clicked := batch_clicked i |}.

(** Sample inputs: a key, the first label, a text, the first button
    clicked *)
Definition sample_inputs : inputs :=
  {| api_key := Some "key";
     model_choice := "Gemini 1.5 Flash (Fast)";
     level_choice := "Detailed";
     dark_choice := false;
     user_text := "hello";
     analyze_clicked := true;
     batch_text := "";
     batch_clicked := false |}.

(** ** Vocabulary of the further properties *)

(** A text starts with one white-space character, of one to three bytes, or
    with none. *)
Inductive starts_with_space : string -> string -> Prop :=
| space_of_1 c1 r : PyStr.space1 c1 = true -> starts_with_space (String c1 r) r
| space_of_2 c1 c2 r :
    PyStr.space1 c1 = false -> PyStr.space2 c1 c2 = true ->
    starts_with_space (String c1 (String c2 r)) r
| space_of_3 c1 c2 c3 r :
    PyStr.space1 c1 = false -> PyStr.space2 c1 c2 = false -> PyStr.space3 c1 c2 c3 = true ->
    starts_with_space (String c1 (String c2 (String c3 r))) r.

(** The row [r] may stand before the row [r'] in the history table: its
    time stamp is not the earlier one. *)
Definition later_first (r r' : nat * EvaluationRecord) : Prop :=
  String.leb (timestamp (snd r')) (timestamp (snd r)) = true.

(** The rows of the history table among the events, in their order *)
Fixpoint rows_shown (es : list event) : list (nat * EvaluationRecord) :=
  match es with
  | [] => []
  | st_history_row idx row :: rest => (idx, row) :: rows_shown rest
  | _ :: rest => rows_shown rest
  end.

(** A record as the handlers make them: its text is not blank and its model
    is one of the identifiers of [MODEL_OPTIONS]. *)
Definition well_formed (r : EvaluationRecord) : Prop :=
  PyStr.truthy (PyStr.strip (original r)) = true
  /\ In (model r) (map snd MODEL_OPTIONS).

(** The actions of the user, one after the other *)
Definition run_actions `{Outside} (actions : list action) (m : machine) : machine :=
  fold_left (fun m' a => step a m') actions m.

(** A record whose rating reads as a NaN *)
Definition rated_nan : EvaluationRecord :=
  record_of "2025-01-01 12:00:03" "fourth" "Overall Rating: nan/10" "gemini-pro".

(** ** Facts about the string operations *)

Module PyStrFacts.
Import PyStr.



Lemma length_append (a b : string) :
  String.length (a ++ b) = String.length a + String.length b.
Proof. induction a as [|x a IH]; simpl; [reflexivity | now rewrite IH]. Qed.

Lemma startswith_self (p r : string) : startswith p (p ++ r) = true.
Proof.
  induction p as [|x p IH]; simpl; [reflexivity|].
  now rewrite Ascii.eqb_refl, IH.
Qed.


Lemma split_from_not_nil (sep : string) (skip : nat) (s : string) :
  split_from sep skip s <> [].
Proof.
  revert skip; induction s as [|c s IH]; intros skip; simpl; [discriminate|].
  destruct skip as [|k]; [|apply IH].
  destruct (startswith sep (String c s)); [discriminate|].
  destruct (split_from sep 0 s) eqn:E; discriminate.
Qed.

Lemma split_not_nil (sep s : string) : split sep s <> [].
Proof. apply split_from_not_nil. Qed.

(** Every split has a first piece. *)
Lemma split_first_piece (sep s : string) :
  exists piece, nth_error (split sep s) 0 = Some piece.
Proof.
  destruct (split sep s) as [|p ps] eqn:E.
  - now apply split_not_nil in E.
  - now exists p.
Qed.

(** A text that holds the separator splits in two pieces at least. *)
Lemma split_second_piece (c0 : ascii) (sep' s : string) :
  contains (String c0 sep') s = true ->
  exists piece, nth_error (split (String c0 sep') s) 1 = Some piece.
Proof.
  unfold split. induction s as [|c s IH]; intros Hs; [discriminate Hs|].
  cbn [contains] in Hs. cbn [split_from].
  destruct (startswith (String c0 sep') (String c s)) eqn:Ehere.
  - destruct (split_from (String c0 sep') (String.length (String c0 sep') - 1) s)
      as [|p ps] eqn:E; [now apply split_from_not_nil in E|].
    now exists p.
  - destruct (IH Hs) as [piece Hpiece].
    destruct (split_from (String c0 sep') 0 s) as [|p [|q ps]]; try discriminate.
    now exists q.
Qed.

(** The characters of a separator that was matched are passed over. *)
Lemma split_from_skip (sep x r : string) :
  split_from sep (String.length x) (x ++ r) = split_from sep 0 r.
Proof. induction x as [|c x IH]; simpl; [reflexivity | exact IH]. Qed.

Lemma split_at_separator (c : ascii) (sep' r : string) :
  split (String c sep') (String c sep' ++ r)
  = "" :: split (String c sep') r.
Proof.
  unfold split. simpl.
  rewrite Ascii.eqb_refl, startswith_self. simpl.
  rewrite Nat.sub_0_r. now rewrite split_from_skip.
Qed.

(** A stretch of text free of the first character of the separator joins
    the first piece of what follows it. *)
Lemma split_free_prefix (c0 : ascii) (sep' a r : string) :
  every (fun c => negb (Ascii.eqb c0 c)) a = true ->
  split (String c0 sep') (a ++ r)
  = match split (String c0 sep') r with
    | piece :: rest => (a ++ piece) :: rest
    | [] => []
    end.
Proof.
  induction a as [|c a IH]; intros Ha.
  - simpl. now destruct (split (String c0 sep') r).
  - simpl in Ha. apply andb_true_iff in Ha as [Hc Ha].
    apply negb_true_iff in Hc.
    unfold split in *. simpl. rewrite Hc. simpl.
    rewrite (IH Ha).
    destruct (split_from (String c0 sep') 0 r) as [|p ps] eqn:E.
    + now apply split_from_not_nil in E.
    + reflexivity.
Qed.




(** *** Stripping *)










End PyStrFacts.

(** ** Facts about numbers and their text *)

Module PyFloatFacts.
Import PyStr PyStrFacts PyFloat.









(** *** A numeral never reads as a NaN *)













(** *** Comparisons *)






End PyFloatFacts.

(** ** Facts about the rating parser *)

Module RatingFacts.
Import PyStr PyStrFacts PyFloat PyFloatFacts.







End RatingFacts.

(** ** Facts about the program *)

Section ProgramFacts.
Context `{Outside}.
Import PyStr PyStrFacts PyFloat PyFloatFacts RatingFacts.

(** [evaluate_text] by the outcome of the call *)
Lemma evaluate_text_returned (text model_name level : string) (m : machine)
      (response_text : string) (w : World) :
  generate_content model_name (main_prompt text level) (world m)
  = (Returned response_text, w) ->
  evaluate_text text model_name level m
  = (strip response_text,
     {| world := w;
        session := history_append
                     (record_of (datetime_now w) text response_text model_name)
                     (session m);
        screen := (screen m ++ [generate model_name (main_prompt text level)])%list |}).
Proof.
  intros E. unfold evaluate_text. cbn [emit world]. now rewrite E.
Qed.

Lemma evaluate_text_raised (text model_name level : string) (m : machine)
      (str_e : string) (w : World) :
  generate_content model_name (main_prompt text level) (world m)
  = (Raised str_e, w) ->
  evaluate_text text model_name level m
  = (error_text str_e,
     {| world := w;
        session := session m;
        screen := (screen m ++ [generate model_name (main_prompt text level)])%list |}).
Proof.
  intros E. unfold evaluate_text. cbn [emit world]. now rewrite E.
Qed.

(** One call: one request, and the history grows by at most one record, at
    its end; nothing else of the session changes. *)
Lemma evaluate_text_effect (text model_name level : string) (m : machine) :
  let m' := snd (evaluate_text text model_name level m) in
  screen m' = (screen m ++ [generate model_name (main_prompt text level)])%list
  /\ selected_model (session m') = selected_model (session m)
  /\ feedback_level (session m') = feedback_level (session m)
  /\ (history (session m') = history (session m)
      \/ exists item, history (session m') = (history (session m) ++ [item])%list).
Proof.
  destruct (generate_content model_name (main_prompt text level) (world m))
    as [[response_text|str_e] w] eqn:E.
  - rewrite (evaluate_text_returned _ _ _ _ _ _ E). cbn.
    repeat split. right. now eexists.
  - rewrite (evaluate_text_raised _ _ _ _ _ _ E). cbn.
    repeat split. now left.
Qed.

Lemma requests_app (es fs : list event) :
  requests (es ++ fs) = (requests es ++ requests fs)%list.
Proof. apply filter_app. Qed.

(** The loop of the batch mode does what the specification says of it. *)
Lemma batch_loop_evaluate_each (model_name : string) (sentences : list string) :
  forall (total i : nat) (results : list (string * string)) (m : machine),
    getitem MODEL_OPTIONS (selected_model (session m)) = Some model_name ->
    batch_loop total i sentences results m
    = (snd (evaluate_each total i model_name sentences m),
       inr (results ++ fst (evaluate_each total i model_name sentences m))%list).
Proof.
  induction sentences as [|sentence rest IH]; intros total i results m Hm.
  - cbn. now rewrite app_nil_r.
  - cbn [batch_loop evaluate_each].
    change (session (emit (st_progress_bar (i + 1) total) m)) with (session m).
    rewrite Hm.
    pose proof (evaluate_text_effect sentence model_name "Concise"
                  (emit (st_progress_bar (i + 1) total) m)) as (_ & Hsel & _).
    destruct (evaluate_text sentence model_name "Concise"
                (emit (st_progress_bar (i + 1) total) m)) as [fb m1].
    cbn [snd] in Hsel. change (session (emit _ m)) with (session m) in Hsel.
    rewrite (IH total (S i) _ m1) by now rewrite Hsel.
    destruct (evaluate_each total (S i) model_name rest m1) as [rows m2].
    cbn [fst snd]. now rewrite <- app_assoc.
Qed.

(** The sentences come back in order, each with one request at the
    "Concise" level. *)
Lemma evaluate_each_rows (model_name : string) (sentences : list string) :
  forall (total i : nat) (m : machine),
    map fst (fst (evaluate_each total i model_name sentences m)) = sentences
    /\ requests (screen (snd (evaluate_each total i model_name sentences m)))
       = (requests (screen m)
          ++ map (fun s => generate model_name (main_prompt s "Concise")) sentences)%list.
Proof.
  induction sentences as [|sentence rest IH]; intros total i m.
  - cbn. now rewrite app_nil_r.
  - cbn [evaluate_each].
    pose proof (evaluate_text_effect sentence model_name "Concise"
                  (emit (st_progress_bar (i + 1) total) m)) as (Hscr & _).
    destruct (evaluate_text sentence model_name "Concise"
                (emit (st_progress_bar (i + 1) total) m)) as [fb m1].
    cbn [snd] in Hscr.
    destruct (IH total (S i) m1) as [Hrows Hreq].
    destruct (evaluate_each total (S i) model_name rest m1) as [rows m2].
    cbn [fst snd map] in *. split; [now rewrite Hrows|].
    rewrite Hreq, Hscr. cbn [emit screen].
    rewrite !requests_app. cbn. now rewrite app_nil_r, <- app_assoc.
Qed.

(** A record stamped no earlier than all before it keeps the order. *)
Lemma chronological_append (h : list EvaluationRecord) (item : EvaluationRecord) :
  chronological (h ++ [item]) = chronological h && none_later (timestamp item) h.
Proof.
  induction h as [|r h IH]; [reflexivity|].
  change (chronological ((r :: h) ++ [item]))
    with (forallb (fun r' => String.leb (timestamp r) (timestamp r')) (h ++ [item])
          && chronological (h ++ [item])).
  change (chronological (r :: h))
    with (forallb (fun r' => String.leb (timestamp r) (timestamp r')) h
          && chronological h).
  change (none_later (timestamp item) (r :: h))
    with (String.leb (timestamp r) (timestamp item)
          && none_later (timestamp item) h).
  rewrite forallb_app, IH. cbn [forallb]. rewrite andb_true_r.
  destruct (forallb (fun r' => String.leb (timestamp r) (timestamp r')) h),
    (String.leb (timestamp r) (timestamp item)), (chronological h),
    (none_later (timestamp item) h);
    reflexivity.
Qed.

End ProgramFacts.

(** ** The claims about [evaluate_text] *)

Section EvaluateText.
Context `{Outside}.
Import PyStr PyStrFacts.

Lemma collect_ratings_app (h1 h2 : list EvaluationRecord) :
  collect_ratings (h1 ++ h2) = (collect_ratings h1 ++ collect_ratings h2)%list.
Proof.
  induction h1 as [|item h1 IH]; [reflexivity|].
  cbn [app collect_ratings]. destruct (item_rating item); cbn; now rewrite IH.
Qed.

(** C1, as amended: when the call to the model raises, [evaluate_text]
    appends nothing: the session, and with it the history, is left as it was,
    and only the error text is returned.  The history holds the successful
    calls. *)
Theorem failed_call_not_recorded
        (text model_name level : string) (m : machine) (str_e : string) (w : World) :
  generate_content model_name (main_prompt text level) (world m)
  = (Raised str_e, w) ->
  session (snd (evaluate_text text model_name level m)) = session m
  /\ fst (evaluate_text text model_name level m) = error_text str_e.
Proof.
  intros E. rewrite (evaluate_text_raised _ _ _ _ _ _ E). now split.
Qed.


(** C10: after a successful call the record appended to the history holds
    the response as it came, while the text returned is the response
    stripped; the ratings gathered from the history are read from the stored
    text.  The two texts differ as soon as the response begins or ends with
    white space. *)
Theorem history_keeps_raw_response
        (text model_name level : string) (m : machine)
        (response_text : string) (w : World) :
  generate_content model_name (main_prompt text level) (world m)
  = (Returned response_text, w) ->
  let m' := snd (evaluate_text text model_name level m) in
  fst (evaluate_text text model_name level m) = strip response_text
  /\ history (session m')
     = (history (session m)
        ++ [record_of (datetime_now w) text response_text model_name])%list
  /\ collect_ratings (history (session m'))
     = (collect_ratings (history (session m))
        ++ match feedback_rating response_text with
           | Some rating => [rating]
           | None => []
           end)%list
  /\ (exists raw, strip raw <> raw).
Proof.
  intros E. rewrite (evaluate_text_returned _ _ _ _ _ _ E). cbn.
  repeat split.
  - rewrite collect_ratings_app. cbn. unfold item_rating. cbn.
    now destruct (feedback_rating response_text).
  - exists " ok ". discriminate.
Qed.

End EvaluateText.

(** ** The claims about the rating read from a feedback text *)

Section Rating.
Context `{Outside}.
Import PyStr PyStrFacts PyFloat PyFloatFacts RatingFacts.

(** A text without the separator is the only piece of its split. *)
Lemma split_without_separator (sep s : string) :
  contains sep s = false -> split sep s = [s].
Proof.
  unfold split. induction s as [|c s IH]; intros Hs; [reflexivity|].
  cbn [contains] in Hs. apply orb_false_iff in Hs as [Hhere Hlater].
  cbn [split_from]. now rewrite Hhere, (IH Hlater).
Qed.

(** Whenever the text holds "Overall Rating" but nowhere "Overall Rating:",
    line 88 of [display_feedback] raises, while the loop of the third tab
    finds no rating. *)
Lemma display_feedback_raises (fb : string) :
  contains "Overall Rating" fb = true ->
  contains "Overall Rating:" fb = false ->
  display_feedback fb = ([], Some IndexError) /\ feedback_rating fb = None.
Proof.
  intros Hshort Hlong. unfold display_feedback, feedback_rating, rating_part, subscript.
  now rewrite Hshort, (split_without_separator _ _ Hlong).
Qed.

(** Without "Overall Rating" the text alone is shown, and no rating is
    found. *)
Lemma display_feedback_unmarked (fb : string) :
  contains "Overall Rating" fb = false ->
  display_feedback fb = ([st_expander_write "📝 Detailed Feedback" fb], None)
  /\ feedback_rating fb = None.
Proof.
  intros Hno. unfold display_feedback, feedback_rating. now rewrite Hno.
Qed.

(** [display_feedback] ends in an exception exactly on the texts that hold
    "Overall Rating" but not "Overall Rating:". *)
Lemma display_feedback_exception (fb : string) :
  snd (display_feedback fb)
  = if contains "Overall Rating" fb && negb (contains "Overall Rating:" fb)
    then Some IndexError else None.
Proof.
  destruct (contains "Overall Rating" fb) eqn:Hshort;
    destruct (contains "Overall Rating:" fb) eqn:Hlong; cbn [andb negb].
  - unfold display_feedback, rating_part, subscript. rewrite Hshort.
    destruct (split_second_piece "O" "verall Rating:" fb Hlong) as [after ->].
    destruct (split_first_piece nl after) as [line ->]. reflexivity.
  - now rewrite (proj1 (display_feedback_raises fb Hshort Hlong)).
  - now rewrite (proj1 (display_feedback_unmarked fb Hshort)).
  - now rewrite (proj1 (display_feedback_unmarked fb Hshort)).
Qed.

(** C2: on the feedback "**Overall Rating**: 7/10", which holds "Overall
    Rating" but not "Overall Rating:", [display_feedback] raises [IndexError]
    on line 88, before its [try] and before anything is drawn, so the text is
    not shown either; the loop of the third tab, whose [try] covers the same
    expression, finds no rating there and goes on.  The results column of
    the first tab passes the exception on. *)
Theorem display_feedback_marker_without_colon :
  display_feedback "**Overall Rating**: 7/10" = ([], Some IndexError)
  /\ feedback_rating "**Overall Rating**: 7/10" = None
  /\ (forall s, last_feedback s = Some "**Overall Rating**: 7/10" ->
        snd (tab1_results s) = Some IndexError).
Proof.
  destruct (display_feedback_raises "**Overall Rating**: 7/10" eq_refl eq_refl)
    as [Hd Hr].
  split; [exact Hd|]. split; [exact Hr|].
  intros s Hs. unfold tab1_results. now rewrite Hs, Hd.
Qed.


End Rating.

(** ** The claims about the handlers and the aggregates *)

Section Session.
Context `{Outside}.
Import PyStr PyStrFacts PyFloat PyFloatFacts.

(** C4, as amended: the button of the first tab appends a record exactly when
    the input is not blank and the call to the model succeeds.  For an input
    that is not blank one request is sent; if it succeeds, one record is
    appended, whose original text is the input as typed and whose time stamp
    is the reading of the clock after the call; nothing in the code compares
    it with the earlier ones, so the time stamps of the history are in order
    afterwards exactly when they were before and no record of the history is
    later than that reading.  If the call fails, the history is left as it
    was.  For a blank input nothing happens but a warning: no request, no
    record. *)
Theorem analyze_text_records (user_text : string) (m : machine) :
  (truthy (strip user_text) = false ->
   analyze_text user_text m
   = (emit (st_warning "⚠️ Please enter text before clicking 'Analyze Text'.") m,
      None))
  /\ (forall model_name,
         truthy (strip user_text) = true ->
         getitem MODEL_OPTIONS (selected_model (session m)) = Some model_name ->
         let m' := fst (analyze_text user_text m) in
         let prompt := main_prompt user_text (feedback_level (session m)) in
         requests (screen m')
         = (requests (screen m) ++ [generate model_name prompt])%list
         /\ match generate_content model_name prompt (world m) with
            | (Returned response_text, w) =>
                history (session m')
                = (history (session m)
                   ++ [record_of (datetime_now w) user_text response_text
                                 model_name])%list
                /\ chronological (history (session m'))
                   = chronological (history (session m))
                     && none_later (datetime_now w) (history (session m))
            | (Raised _, _) => history (session m') = history (session m)
            end).
Proof.
  split.
  - intros Hblank. unfold analyze_text. now rewrite Hblank.
  - intros model_name Htext Hmodel m' prompt. unfold m', analyze_text.
    rewrite Htext, Hmodel. fold prompt.
    destruct (generate_content model_name prompt (world m))
      as [[response_text|str_e] w] eqn:E.
    + rewrite (evaluate_text_returned _ _ _ _ _ _ E). cbn.
      rewrite !requests_app. cbn. rewrite app_nil_r.
      split; [reflexivity|]. split; [reflexivity|].
      apply chronological_append.
    + rewrite (evaluate_text_raised _ _ _ _ _ _ E). cbn.
      rewrite !requests_app. cbn. rewrite app_nil_r.
      split; reflexivity.
Qed.

(** A record without a rating adds nothing to the ratings. *)
Lemma collect_ratings_skip (h1 h2 : list EvaluationRecord) (item : EvaluationRecord) :
  item_rating item = None ->
  collect_ratings (h1 ++ item :: h2) = collect_ratings (h1 ++ h2).
Proof.
  intros Hitem. rewrite !collect_ratings_app. cbn [collect_ratings].
  now rewrite Hitem.
Qed.

(** C5, as amended: the average and the maximum are computed over exactly
    the ratings read from the history, in its order; a record whose rating is
    absent or cannot be read adds nothing to them, wherever it stands.  For
    the ratings 3.0 and 9.0 the average is 6.0 and the maximum 9.0.  The
    count shown, "Total Evaluations", is the number of all the records of the
    history. *)
Theorem aggregates_over_read_ratings :
  (forall h1 h2 item,
      item_rating item = None ->
      collect_ratings (h1 ++ item :: h2) = collect_ratings (h1 ++ h2))
  /\ (forall h1 h2 item rating,
         item_rating item = Some rating ->
         collect_ratings (h1 ++ item :: h2)
         = (collect_ratings h1 ++ rating :: collect_ratings h2)%list)
  /\ (forall h rating rest,
         collect_ratings h = rating :: rest ->
         exists avg best,
           truediv (sum (rating :: rest)) (Z.of_nat (List.length (rating :: rest)))
           = Some avg
           /\ max (rating :: rest) = Some best
           /\ performance_metrics h
              = ([st_metric "Total Evaluations" (count (List.length h));
                  st_metric "Average Rating" (out_of_ten avg);
                  st_metric "Best Rating" (out_of_ten best);
                  st_line_chart (rating :: rest)], None))
  /\ (forall h,
         collect_ratings h = [of_Z 3; of_Z 9] ->
         performance_metrics h
         = ([st_metric "Total Evaluations" (count (List.length h));
             st_metric "Average Rating" (out_of_ten (of_Z 6));
             st_metric "Best Rating" (out_of_ten (of_Z 9));
             st_line_chart [of_Z 3; of_Z 9]], None))
  /\ of_string "3.0" = Some (of_Z 3)
  /\ of_string "9.0" = Some (of_Z 9)
  /\ of_string "6.0" = Some (of_Z 6).
Proof.
  split; [intros h1 h2 item; apply collect_ratings_skip|].
  split.
  { intros h1 h2 item rating Hitem. rewrite collect_ratings_app.
    cbn [collect_ratings]. now rewrite Hitem. }
  split.
  { intros h rating rest Hh. unfold performance_metrics. rewrite Hh.
    unfold truediv.
    destruct (Z.of_nat (List.length (rating :: rest)) =? 0)%Z eqn:E.
    - apply Z.eqb_eq in E. cbn [List.length] in E. lia.
    - cbn [max]. eexists. eexists. repeat split. }
  split.
  { intros h Hh. unfold performance_metrics. rewrite Hh. reflexivity. }
  repeat split; vm_compute; reflexivity.
Qed.

(** C6: the batch mode splits its input at the line breaks, keeps the lines
    that are not blank once stripped, stripped, and evaluates them one after
    the other, in order, each by [evaluate_text] with the "Concise" level
    whatever level the session holds; its table pairs every sentence with
    the text [evaluate_text] returned for it.  The input of the lines "a",
    "", "b", "  ", "c" gives the sentences "a", "b", "c".  A blank input gets
    a warning only. *)
Theorem batch_evaluates_each_line (batch_text : string) (m : machine) :
  sentences_of batch_text
  = map strip (filter (fun s => truthy (strip s)) (split nl batch_text))
  /\ sentences_of ("a" ++ nl ++ nl ++ "b" ++ nl ++ "  " ++ nl ++ "c")
     = ["a"; "b"; "c"]
  /\ (truthy (strip batch_text) = false ->
      batch_analyze batch_text m
      = (emit (st_warning "Please enter some text to analyze") m, None))
  /\ (forall model_name,
         truthy (strip batch_text) = true ->
         getitem MODEL_OPTIONS (selected_model (session m)) = Some model_name ->
         let sentences := sentences_of batch_text in
         let total := List.length sentences in
         let run :=
           evaluate_each total 0 model_name sentences
                         (emit (st_progress_bar 0 total) m) in
         batch_analyze batch_text m
         = (emit_all [st_success "✅ Analysis complete!"; st_dataframe (fst run)]
                     (snd run), None)
         /\ map fst (fst run) = sentences
         /\ requests (screen (snd run))
            = (requests (screen m)
               ++ map (fun s => generate model_name (main_prompt s "Concise"))
                      sentences)%list).
Proof.
  split; [reflexivity|]. split; [vm_compute; reflexivity|]. split.
  - intros Hblank. unfold batch_analyze. now rewrite Hblank.
  - intros model_name Htext Hmodel sentences total run.
    destruct (evaluate_each_rows model_name sentences total 0
                (emit (st_progress_bar 0 total) m)) as [Hrows Hreq].
    fold run in Hrows, Hreq. split; [|split; [exact Hrows|]].
    + unfold batch_analyze. rewrite Htext. fold sentences. fold total.
      rewrite (batch_loop_evaluate_each model_name sentences total 0 []
                 (emit (st_progress_bar 0 total) m) Hmodel).
      reflexivity.
    + rewrite Hreq. cbn [emit screen]. rewrite requests_app. cbn.
      now rewrite app_nil_r.
Qed.

(** The third tab never ends in an exception. *)
Lemma tab3_no_exception (s : session_state) : snd (tab3 s) = None.
Proof.
  unfold tab3. destruct (history s) as [|item h] eqn:Eh; [reflexivity|].
  unfold performance_metrics.
  destruct (collect_ratings (item :: h)) as [|rating rest]; [reflexivity|].
  unfold truediv.
  destruct (Z.of_nat (List.length (rating :: rest)) =? 0)%Z eqn:E.
  - apply Z.eqb_eq in E. cbn [List.length] in E. lia.
  - reflexivity.
Qed.

(** C8: the button of the side bar empties the history; the third tab then
    shows that there is no history yet and no metric.  On any history from
    which no rating can be read, the third tab shows "No rating data
    available in history" and no metric.  The average is only computed over
    a list of ratings that is not empty, and the third tab never ends in an
    exception, a division by zero in particular. *)
Theorem cleared_history_has_no_average (m : machine) :
  history (session (clear_history m)) = []
  /\ tab3 (session (clear_history m))
     = ([st_info "No evaluation history yet. Analyze some text to see it here."],
        None)
  /\ (forall s,
        match collect_ratings (history s), history s with
        | [], _ :: _ =>
            tab3 s
            = ((show_history s
                ++ [st_subheader "📈 Performance Metrics";
                    st_info "No rating data available in history"])%list, None)
            /\ existsb is_metric (fst (tab3 s)) = false
        | [], [] => existsb is_metric (fst (tab3 s)) = false
        | _ :: _, _ => existsb is_metric (fst (tab3 s)) = true
        end)
  /\ (forall s, snd (tab3 s) = None)
  /\ (forall xs : list float,
        truediv (sum xs) (Z.of_nat (List.length xs)) = None <-> xs = []).
Proof.
  split; [reflexivity|]. split; [reflexivity|]. split; [|split].
  - intros s.
    assert (Hrows : forall rows : list (nat * EvaluationRecord),
               existsb is_metric
                       (map (fun r => st_history_row (fst r) (snd r)) rows) = false).
    { induction rows as [|r rows IH]; [reflexivity | exact IH]. }
    destruct (collect_ratings (history s)) as [|rating rest] eqn:Er;
      destruct (history s) as [|item h] eqn:Eh.
    + unfold tab3. rewrite Eh. unfold show_history. now rewrite Eh.
    + unfold tab3, performance_metrics. rewrite Eh, Er. split; [reflexivity|].
      unfold show_history. rewrite Eh. cbn [fst]. rewrite existsb_app.
      cbn [existsb is_metric]. rewrite Hrows. reflexivity.
    + discriminate Er.
    + pose proof (tab3_no_exception s) as Hno.
      unfold tab3, performance_metrics in *. rewrite Eh, Er in *.
      unfold truediv in *.
      destruct (Z.of_nat (List.length (rating :: rest)) =? 0)%Z; [discriminate Hno|].
      cbn [max fst]. rewrite existsb_app. cbn. apply orb_true_r.
  - apply tab3_no_exception.
  - intros xs. unfold truediv. split.
    + destruct (Z.of_nat (List.length xs) =? 0)%Z eqn:E; [|discriminate].
      intros _. apply Z.eqb_eq in E. destruct xs; [reflexivity|].
      cbn [List.length] in E. lia.
    + now intros ->.
Qed.

Ltac kept := exists []; cbn; now rewrite app_nil_r.

(** C9: the history only grows at its end or is emptied.  [evaluate_text]
    leaves the history as it was or appends one record to it; the button of
    the side bar empties it; and after any action of the user the history is
    empty, if the action was that button, or else is the history before the
    action followed by the records appended since: no record is changed,
    moved or removed on its own. *)
Theorem history_appended_or_cleared (a : action) (m : machine) :
  (forall text model_name level,
      let m' := snd (evaluate_text text model_name level m) in
      history (session m') = history (session m)
      \/ exists item, history (session m') = (history (session m) ++ [item])%list)
  /\ history (session (clear_history m)) = []
  /\ (a = click_clear_history /\ history (session (step a m)) = []
      \/ exists added,
          history (session (step a m)) = (history (session m) ++ added)%list).
Proof.
  split; [intros text model_name level; apply evaluate_text_effect|].
  split; [reflexivity|].
  destruct a as [user_text|batch_text| |label|level|on]; cbn [step].
  - right. unfold analyze_text.
    destruct (truthy (strip user_text)); [|kept].
    destruct (getitem MODEL_OPTIONS (selected_model (session m))) as [model_name|];
      [|kept].
    pose proof (evaluate_text_effect user_text model_name
                  (feedback_level (session m)) m) as (_ & _ & _ & Hh).
    destruct (evaluate_text user_text model_name (feedback_level (session m)) m)
      as [fb m1].
    cbn in Hh |- *. destruct Hh as [-> | [item ->]]; [kept | now eexists].
  - right. unfold batch_analyze.
    destruct (truthy (strip batch_text)); [|kept].
    set (sentences := sentences_of batch_text).
    set (total := List.length sentences).
    clearbody total. clearbody sentences.
    change (history (session m))
      with (history (session (emit (st_progress_bar 0 total) m))).
    generalize (emit (st_progress_bar 0 total) m) as m0.
    generalize (@nil (string * string)) as results.
    generalize 0 as i.
    induction sentences as [|sentence rest IH]; intros i results m0.
    + kept.
    + cbn [batch_loop].
      change (session (emit (st_progress_bar (i + 1) total) m0)) with (session m0).
      destruct (getitem MODEL_OPTIONS (selected_model (session m0)))
        as [model_name|]; [|kept].
      pose proof (evaluate_text_effect sentence model_name "Concise"
                    (emit (st_progress_bar (i + 1) total) m0)) as (_ & _ & _ & Hh).
      destruct (evaluate_text sentence model_name "Concise"
                  (emit (st_progress_bar (i + 1) total) m0)) as [fb m1].
      cbn [snd] in Hh.
      change (session (emit (st_progress_bar (i + 1) total) m0))
        with (session m0) in Hh.
      destruct (IH (S i) (results ++ [(sentence, fb)])%list m1) as [added Hadded].
      destruct Hh as [E | [item E]]; rewrite E in Hadded.
      * now exists added.
      * exists (item :: added). now rewrite Hadded, <- app_assoc.
  - left. now split.
  - right. kept.
  - right. kept.
  - right. kept.
Qed.

End Session.

(** ** The claims that fail as stated, and instances of the others *)

(** C1 as stated fails: when the service raises, [evaluate_text] on "hello"
    leaves the empty history empty, where the claim wants a record of the
    attempt. *)
Lemma failed_call_leaves_no_record :
  ~ (forall (O : Outside) (text model_name level : string) (m : machine)
            (str_e : string) (w : World),
        generate_content model_name (main_prompt text level) (world m)
        = (Raised str_e, w) ->
        exists item,
          history (session (snd (evaluate_text text model_name level m)))
          = (history (session m) ++ [item])%list
          /\ original item = text
          /\ feedback item = error_text str_e).
Proof.
  intros Hall.
  destruct (Hall failing "hello" "gemini-1.5-flash" "Detailed"
                 (initial_machine failing 0) "quota exceeded" 1 eq_refl)
    as (item & E & _).
  vm_compute in E. discriminate E.
Qed.

(** C1 at the world whose service is out of quota *)
Lemma failed_call_not_recorded_witness :
  generate_content (Outside := failing) "gemini-1.5-flash"
                   (main_prompt "hello" "Detailed") 0
  = (Raised "quota exceeded", 1)
  /\ session (snd (evaluate_text (H := failing) "hello" "gemini-1.5-flash" "Detailed"
                                 (initial_machine failing 0)))
     = initial_session
  /\ fst (evaluate_text (H := failing) "hello" "gemini-1.5-flash" "Detailed"
                        (initial_machine failing 0))
     = error_text "quota exceeded".
Proof.
  split; [reflexivity|].
  exact (failed_call_not_recorded (H := failing) "hello" "gemini-1.5-flash"
           "Detailed" (initial_machine failing 0) "quota exceeded" 1 eq_refl).
Defined.

(** C2 at a session whose last feedback is the text without the colon *)
Lemma display_feedback_marker_without_colon_witness :
  last_feedback (set_last "**Overall Rating**: 7/10" "hello" initial_session)
  = Some "**Overall Rating**: 7/10"
  /\ snd (tab1_results (H := answering)
                       (set_last "**Overall Rating**: 7/10" "hello" initial_session))
     = Some IndexError.
Proof.
  split; [reflexivity|].
  destruct (display_feedback_marker_without_colon (H := answering)) as (_ & _ & Htab).
  exact (Htab (set_last "**Overall Rating**: 7/10" "hello" initial_session) eq_refl).
Defined.

(** C3 as stated fails: where [st.progress] takes the floats from 0 to 1,
    as Streamlit does, the text "Overall Rating: 11/10" gives the rating
    11.0, which is not below 7, and no band is shown for it, neither green
    nor any other: [st.progress(1.1)] raises inside the [try], before the
    colour is drawn. *)
Lemma rating_above_ten_shows_no_band :
  ~ (forall (O : Outside) (fb : string) (rating : PyFloat.float),
        (forall x, st_progress_accepts x = unit_range x) ->
        feedback_rating fb = Some rating ->
        (In (st_markdown_color "red") (fst (display_feedback fb))
         <-> PyFloat.ltb rating (PyFloat.of_Z 4) = true)
        /\ (In (st_markdown_color "orange") (fst (display_feedback fb))
            <-> PyFloat.leb (PyFloat.of_Z 4) rating = true
                /\ PyFloat.ltb rating (PyFloat.of_Z 7) = true)
        /\ (In (st_markdown_color "green") (fst (display_feedback fb))
            <-> PyFloat.leb (PyFloat.of_Z 7) rating = true)).
Proof.
  intros Hall.
  assert (Hrating : feedback_rating "Overall Rating: 11/10" = Some (PyFloat.of_Z 11))
    by (vm_compute; reflexivity).
  destruct (Hall answering "Overall Rating: 11/10" (PyFloat.of_Z 11)
                 (fun x => eq_refl) Hrating) as (_ & _ & _ & Hgreen).
  assert (Hhigh : PyFloat.leb (PyFloat.of_Z 7) (PyFloat.of_Z 11) = true)
    by (vm_compute; reflexivity).
  specialize (Hgreen Hhigh). vm_compute in Hgreen.
  destruct Hgreen as [E|[E|[]]]; discriminate E.
Qed.


(** C4 as stated fails, twice.  With a model chosen and the input "hello",
    which is not blank, the button of the first tab appends no record when
    the service raises.  And when the service answers, the record appended
    may bear a time stamp earlier than that of a record before it: in the
    world whose clock is set back after the first request, the record of
    the second analysis is stamped 02:10:00, the record of the first
    02:30:00. *)
Lemma analyze_text_without_record :
  ~ (forall (O : Outside) (user_text model_name : string) (m : machine),
        PyStr.truthy (PyStr.strip user_text) = true ->
        getitem MODEL_OPTIONS (selected_model (session m)) = Some model_name ->
        exists item,
          history (session (fst (analyze_text user_text m)))
          = (history (session m) ++ [item])%list
          /\ original item = user_text)
  /\ ~ (forall (O : Outside) (user_text model_name response_text : string)
               (m : machine) (w : World),
           PyStr.truthy (PyStr.strip user_text) = true ->
           getitem MODEL_OPTIONS (selected_model (session m)) = Some model_name ->
           generate_content model_name
                            (main_prompt user_text (feedback_level (session m)))
                            (world m)
           = (Returned response_text, w) ->
           exists item,
             history (session (fst (analyze_text user_text m)))
             = (history (session m) ++ [item])%list
             /\ original item = user_text
             /\ none_later (timestamp item) (history (session m)) = true).
Proof.
  split.
  - intros Hall.
    destruct (Hall failing "hello" "gemini-1.5-flash" (initial_machine failing 0)
                   eq_refl eq_refl) as (item & E & _).
    vm_compute in E. discriminate E.
  - intros Hall.
    destruct (Hall falling_back "second" "gemini-1.5-flash" answer
                   (fst (analyze_text (H := falling_back) "first"
                                      (initial_machine falling_back 0)))
                   2 eq_refl eq_refl eq_refl) as (item & E & _ & Hlater).
    vm_compute in E. injection E as <-.
    vm_compute in Hlater. discriminate Hlater.
Qed.

(** C4 at a blank input, at the input " hi " with a service that answers,
    and at a second analysis, under a clock that stands still and under one
    that is set back *)
Lemma analyze_text_records_witness :
  (PyStr.truthy (PyStr.strip "   ") = false
   /\ analyze_text (H := answering) "   " (initial_machine answering 0)
      = (emit (st_warning "⚠️ Please enter text before clicking 'Analyze Text'.")
              (initial_machine answering 0), None))
  /\ (PyStr.truthy (PyStr.strip " hi ") = true
      /\ getitem MODEL_OPTIONS (selected_model initial_session)
         = Some "gemini-1.5-flash"
      /\ history (session (fst (analyze_text (H := answering) " hi "
                                             (initial_machine answering 0))))
         = [record_of "2025-01-01 12:00:00" " hi " answer "gemini-1.5-flash"])
  /\ chronological
       (history
          (session
             (fst (analyze_text
                     (H := answering) "second"
                     (fst (analyze_text (H := answering) "first"
                                        (initial_machine answering 0)))))))
     = true
  /\ chronological
       (history
          (session
             (fst (analyze_text
                     (H := falling_back) "second"
                     (fst (analyze_text (H := falling_back) "first"
                                        (initial_machine falling_back 0)))))))
     = false.
Proof.
  split.
  - split; [reflexivity|].
    exact (proj1 (analyze_text_records (H := answering) "   "
                    (initial_machine answering 0)) eq_refl).
  - split.
    + split; [reflexivity|]. split; [reflexivity|].
      exact (proj1 (proj2 (proj2 (analyze_text_records (H := answering) " hi "
                                    (initial_machine answering 0))
                             "gemini-1.5-flash" eq_refl eq_refl))).
    + split.
      * pose proof (proj2 (proj2 (analyze_text_records
                                    (H := answering) "second"
                                    (fst (analyze_text (H := answering) "first"
                                                       (initial_machine answering 0))))
                             "gemini-1.5-flash" eq_refl eq_refl)) as Hsecond.
        exact (proj2 Hsecond).
      * pose proof (proj2 (proj2 (analyze_text_records
                                    (H := falling_back) "second"
                                    (fst (analyze_text (H := falling_back) "first"
                                                       (initial_machine falling_back 0))))
                             "gemini-1.5-flash" eq_refl eq_refl)) as Hsecond.
        exact (proj2 Hsecond).
Defined.

(** C5 as stated fails: a record without a rating, put between one rated 3
    and one rated 9, changes what the metrics show, since the count goes
    from 2 to 3. *)
Lemma unrated_record_is_counted :
  ~ (forall (h1 h2 : list EvaluationRecord) (item : EvaluationRecord),
        item_rating item = None ->
        fst (performance_metrics (h1 ++ item :: h2))
        = fst (performance_metrics (h1 ++ h2))).
Proof.
  intros Hall.
  specialize (Hall [rated_3] [rated_9] unrated eq_refl).
  vm_compute in Hall. discriminate Hall.
Qed.

(** C5 at the history of a record rated 3, one without a rating and one
    rated 9 *)
Lemma aggregates_over_read_ratings_witness :
  (item_rating unrated = None
   /\ collect_ratings ([rated_3] ++ unrated :: [rated_9])
      = collect_ratings ([rated_3] ++ [rated_9]))
  /\ (collect_ratings [rated_3; unrated; rated_9] = [PyFloat.of_Z 3; PyFloat.of_Z 9]
      /\ performance_metrics [rated_3; unrated; rated_9]
         = ([st_metric "Total Evaluations" (count 3);
             st_metric "Average Rating" (out_of_ten (PyFloat.of_Z 6));
             st_metric "Best Rating" (out_of_ten (PyFloat.of_Z 9));
             st_line_chart [PyFloat.of_Z 3; PyFloat.of_Z 9]], None)).
Proof.
  destruct aggregates_over_read_ratings as (Hskip & _ & _ & Hexample & _).
  split.
  - split; [reflexivity|]. exact (Hskip [rated_3] [rated_9] unrated eq_refl).
  - split; [reflexivity|]. exact (Hexample [rated_3; unrated; rated_9] eq_refl).
Defined.

(** C6 at a blank input and at the lines "a", "", " b " *)
Lemma batch_evaluates_each_line_witness :
  (PyStr.truthy (PyStr.strip ("  " ++ nl)) = false
   /\ batch_analyze (H := answering) ("  " ++ nl) (initial_machine answering 0)
      = (emit (st_warning "Please enter some text to analyze")
              (initial_machine answering 0), None))
  /\ (PyStr.truthy (PyStr.strip ("a" ++ nl ++ nl ++ " b ")) = true
      /\ getitem MODEL_OPTIONS (selected_model initial_session)
         = Some "gemini-1.5-flash"
      /\ requests
           (screen
              (snd (evaluate_each (H := answering) 2 0 "gemini-1.5-flash" ["a"; "b"]
                                  (emit (st_progress_bar 0 2)
                                        (initial_machine answering 0)))))
         = [generate "gemini-1.5-flash" (main_prompt "a" "Concise");
            generate "gemini-1.5-flash" (main_prompt "b" "Concise")]).
Proof.
  split.
  - split; [reflexivity|].
    exact (proj1 (proj2 (proj2 (batch_evaluates_each_line
                                  (H := answering) ("  " ++ nl)
                                  (initial_machine answering 0)))) eq_refl).
  - split; [reflexivity|]. split; [reflexivity|].
    exact (proj2 (proj2 (proj2 (proj2 (proj2 (batch_evaluates_each_line
                                                (H := answering)
                                                ("a" ++ nl ++ nl ++ " b ")
                                                (initial_machine answering 0))))
                          "gemini-1.5-flash" eq_refl eq_refl))).
Defined.


(** C8 at the session after one analysis *)
Lemma cleared_history_has_no_average_witness :
  history (session (clear_history
                      (fst (analyze_text (H := answering) "hello"
                                         (initial_machine answering 0)))))
  = []
  /\ PyFloat.truediv (PyFloat.sum []) (Z.of_nat (List.length (@nil PyFloat.float)))
     = None.
Proof.
  destruct (cleared_history_has_no_average
              (H := answering)
              (fst (analyze_text (H := answering) "hello"
                                 (initial_machine answering 0))))
    as (Hclear & _ & _ & _ & Hdiv).
  split; [exact Hclear|]. exact (proj2 (Hdiv []) eq_refl).
Defined.

(** C10 at the world whose service answers with a text wrapped in white
    space *)
Lemma history_keeps_raw_response_witness :
  generate_content (Outside := answering) "gemini-pro"
                   (main_prompt "hello" "Detailed") 0
  = (Returned answer, 1)
  /\ fst (evaluate_text (H := answering) "hello" "gemini-pro" "Detailed"
                        (initial_machine answering 0))
     = PyStr.strip answer
  /\ history (session (snd (evaluate_text (H := answering) "hello" "gemini-pro"
                                          "Detailed" (initial_machine answering 0))))
     = [record_of "2025-01-01 12:00:00" "hello" answer "gemini-pro"]
  /\ PyStr.strip answer <> answer.
Proof.
  destruct (history_keeps_raw_response (H := answering) "hello" "gemini-pro"
              "Detailed" (initial_machine answering 0) answer 1 eq_refl)
    as (Hshown & Hstored & _).
  split; [reflexivity|]. split; [exact Hshown|]. split; [exact Hstored|].
  discriminate.
Defined.

(** ** More facts about stripping and splitting *)

Module StripFacts.
Import PyStr PyStrFacts.

Lemma string_length_ind (P : string -> Prop) :
  (forall s, (forall t, String.length t < String.length s -> P t) -> P s) ->
  forall s, P s.
Proof.
  intros Hstep s.
  assert (Hall : forall n t, String.length t < n -> P t).
  { induction n as [|n IH]; intros t Ht; [lia|].
    apply Hstep. intros u Hu. apply IH. lia. }
  apply (Hall (S (String.length s))). lia.
Qed.

Lemma lstrip_cases (s : string) :
  lstrip s = s \/ exists r, starts_with_space s r /\ lstrip s = lstrip r.
Proof.
  destruct s as [|c1 r1]; [now left|]. cbn [lstrip].
  destruct (space1 c1) eqn:E1; [right; exists r1; split; [now constructor|reflexivity]|].
  destruct r1 as [|c2 r2]; [now left|].
  destruct (space2 c1 c2) eqn:E2;
    [right; exists r2; split; [now constructor|reflexivity]|].
  destruct r2 as [|c3 r3]; [now left|].
  destruct (space3 c1 c2 c3) eqn:E3; [|now left].
  right. exists r3. split; [now constructor|reflexivity].
Qed.

Lemma all_space_cases (s : string) :
  s = "" \/ (s <> "" /\ all_space s = false /\ lstrip s = s)
  \/ exists r, starts_with_space s r /\ all_space s = all_space r.
Proof.
  destruct s as [|c1 r1]; [now left|]. right. cbn [all_space lstrip].
  destruct (space1 c1) eqn:E1; [right; exists r1; split; [now constructor|reflexivity]|].
  destruct r1 as [|c2 r2]; [left; repeat split; discriminate|].
  destruct (space2 c1 c2) eqn:E2;
    [right; exists r2; split; [now constructor|reflexivity]|].
  destruct r2 as [|c3 r3]; [left; repeat split; discriminate|].
  destruct (space3 c1 c2 c3) eqn:E3.
  - right. exists r3. split; [now constructor|reflexivity].
  - left. repeat split; discriminate.
Qed.

Lemma starts_with_space_length (s r : string) :
  starts_with_space s r -> String.length r < String.length s.
Proof. intros []; simpl; lia. Qed.

Lemma starts_with_space_app (s r t : string) :
  starts_with_space s r -> starts_with_space (s ++ t) (r ++ t).
Proof. intros []; cbn [append]; now constructor. Qed.

Lemma starts_with_space_lstrip (s r : string) :
  starts_with_space s r -> lstrip s = lstrip r.
Proof.
  intros [c1 r' E1|c1 c2 r' E1 E2|c1 c2 c3 r' E1 E2 E3]; cbn [lstrip].
  - now rewrite E1.
  - now rewrite E1, E2.
  - now rewrite E1, E2, E3.
Qed.

Lemma starts_with_space_all_space (s r : string) :
  starts_with_space s r -> all_space s = all_space r.
Proof.
  intros [c1 r' E1|c1 c2 r' E1 E2|c1 c2 c3 r' E1 E2 E3]; cbn [all_space].
  - now rewrite E1.
  - now rewrite E1, E2.
  - now rewrite E1, E2, E3.
Qed.

Lemma starts_with_space_every (p : ascii -> bool) (s r : string) :
  starts_with_space s r -> every p s = true -> every p r = true.
Proof.
  intros []; cbn [every]; intros E;
    repeat (apply andb_true_iff in E as [_ E]); exact E.
Qed.

Lemma lstrip_length (s : string) : String.length (lstrip s) <= String.length s.
Proof.
  induction s as [s IH] using string_length_ind.
  destruct (lstrip_cases s) as [->|(r & Hr & ->)]; [lia|].
  pose proof (starts_with_space_length _ _ Hr). specialize (IH r). lia.
Qed.

(** What is left of a text after stripping was in it. *)
Lemma every_lstrip (p : ascii -> bool) (s : string) :
  every p s = true -> every p (lstrip s) = true.
Proof.
  induction s as [s IH] using string_length_ind. intros Hs.
  destruct (lstrip_cases s) as [->|(r & Hr & ->)]; [exact Hs|].
  apply IH; [now apply starts_with_space_length|].
  exact (starts_with_space_every p _ _ Hr Hs).
Qed.

Lemma every_rstrip (p : ascii -> bool) (s : string) :
  every p s = true -> every p (rstrip s) = true.
Proof.
  induction s as [|c r IH]; [reflexivity|]. intros Hs.
  cbn [rstrip]. destruct (all_space (String c r)); [reflexivity|].
  cbn [every] in *. apply andb_true_iff in Hs as [Hc Hr].
  now rewrite Hc, IH.
Qed.

Lemma every_strip (p : ascii -> bool) (s : string) :
  every p s = true -> every p (strip s) = true.
Proof. intros Hs. apply every_rstrip, every_lstrip, Hs. Qed.

(** White space in front does not count. *)
Lemma all_space_app (a b : string) :
  all_space a = true -> all_space (a ++ b) = all_space b.
Proof.
  induction a as [a IH] using string_length_ind. intros Ha.
  destruct (all_space_cases a) as [->|[(_ & E & _)|(r & Hr & E)]].
  - reflexivity.
  - congruence.
  - rewrite (starts_with_space_all_space _ _ (starts_with_space_app _ _ b Hr)).
    apply IH; [now apply starts_with_space_length | congruence].
Qed.

Lemma lstrip_all_space (s : string) : all_space (lstrip s) = all_space s.
Proof.
  induction s as [s IH] using string_length_ind.
  destruct (lstrip_cases s) as [->|(r & Hr & ->)]; [reflexivity|].
  rewrite (starts_with_space_all_space _ _ Hr).
  apply IH. now apply starts_with_space_length.
Qed.

Lemma lstrip_idempotent (s : string) : lstrip (lstrip s) = lstrip s.
Proof.
  induction s as [s IH] using string_length_ind.
  destruct (lstrip_cases s) as [E|(r & Hr & E)].
  - now rewrite E.
  - rewrite E. apply IH. now apply starts_with_space_length.
Qed.

(** Stripping on the right cuts white space off the end. *)
Lemma rstrip_prefix (s : string) :
  exists w, s = rstrip s ++ w /\ all_space w = true.
Proof.
  induction s as [|c r IH]; [now exists ""|].
  cbn [rstrip]. destruct (all_space (String c r)) eqn:E.
  - now exists (String c r).
  - destruct IH as (w & Hw & Hsp). exists w. split; [|exact Hsp].
    cbn [append]. now rewrite <- Hw.
Qed.

Lemma rstrip_empty (s : string) : rstrip s = "" <-> all_space s = true.
Proof.
  destruct s as [|c r]; [now split|]. cbn [rstrip].
  destruct (all_space (String c r)); split; intros E; try reflexivity;
    discriminate.
Qed.

Lemma rstrip_idempotent (s : string) : rstrip (rstrip s) = rstrip s.
Proof.
  induction s as [|c r IH]; [reflexivity|].
  cbn [rstrip]. destruct (all_space (String c r)) eqn:E; [reflexivity|].
  cbn [rstrip]. rewrite IH.
  destruct (all_space (String c (rstrip r))) eqn:E'; [|reflexivity].
  exfalso. destruct (rstrip_prefix r) as (w & Hw & Hsp).
  rewrite Hw in E.
  change (String c (rstrip r ++ w)) with (String c (rstrip r) ++ w) in E.
  rewrite (all_space_app _ w E') in E. congruence.
Qed.

(** A text that does not start with white space keeps that after white
    space is cut off its end. *)
Lemma lstrip_rstrip (u : string) : lstrip u = u -> lstrip (rstrip u) = rstrip u.
Proof.
  intros Hu. destruct (lstrip_cases (rstrip u)) as [E|(r & Hr & _)]; [exact E|].
  exfalso. destruct (rstrip_prefix u) as (w & Hw & _).
  pose proof (starts_with_space_app _ _ w Hr) as Hr'. rewrite <- Hw in Hr'.
  pose proof (starts_with_space_lstrip _ _ Hr') as E.
  pose proof (starts_with_space_length _ _ Hr') as Hlen.
  pose proof (lstrip_length (r ++ w)) as Hle.
  rewrite Hu in E. rewrite <- E in Hle. lia.
Qed.

(** Stripping twice is stripping once. *)
Lemma strip_idempotent (s : string) : strip (strip s) = strip s.
Proof.
  unfold strip.
  rewrite (lstrip_rstrip (lstrip s) (lstrip_idempotent s)).
  apply rstrip_idempotent.
Qed.

(** A text is blank exactly when it is white space throughout. *)
Lemma strip_blank (s : string) : truthy (strip s) = false <-> all_space s = true.
Proof.
  unfold strip. rewrite <- lstrip_all_space, <- rstrip_empty.
  destruct (rstrip (lstrip s)); split; intros E; try reflexivity; discriminate.
Qed.

(** *** Splitting and joining *)

Lemma startswith_decompose (p s : string) :
  startswith p s = true -> exists r, s = p ++ r.
Proof.
  revert s. induction p as [|a p IH]; intros s Hs; [now exists s|].
  destruct s as [|b s]; [discriminate|]. cbn [startswith] in Hs.
  apply andb_true_iff in Hs as [Hab Hs]. apply Ascii.eqb_eq in Hab as ->.
  destruct (IH s Hs) as [r ->]. now exists r.
Qed.

Lemma concat_cons_char (sep : string) (c : ascii) (piece : string)
      (rest : list string) :
  String.concat sep (String c piece :: rest)
  = String c (String.concat sep (piece :: rest)).
Proof. destruct rest; reflexivity. Qed.

Lemma concat_cons_cons (sep x y : string) (rest : list string) :
  String.concat sep (x :: y :: rest) = x ++ sep ++ String.concat sep (y :: rest).
Proof. reflexivity. Qed.

(** Joining the pieces of a split with the separator gives the text back. *)
Lemma join_split (c0 : ascii) (sep' s : string) :
  String.concat (String c0 sep') (split (String c0 sep') s) = s.
Proof.
  induction s as [s IH] using string_length_ind.
  destruct s as [|c s']; [reflexivity|].
  destruct (startswith (String c0 sep') (String c s')) eqn:Ehere.
  - destruct (startswith_decompose _ _ Ehere) as [r Hr]. rewrite Hr.
    rewrite split_at_separator.
    destruct (split (String c0 sep') r) as [|piece rest] eqn:Er;
      [now apply split_not_nil in Er|].
    rewrite concat_cons_cons, <- Er, IH; [reflexivity|].
    rewrite Hr, length_append. simpl. lia.
  - unfold split in *. cbn [split_from]. rewrite Ehere.
    specialize (IH s' (Nat.lt_succ_diag_r _)).
    destruct (split_from (String c0 sep') 0 s') as [|piece rest] eqn:Es;
      [now apply split_from_not_nil in Es|].
    now rewrite concat_cons_char, IH.
Qed.

(** The pieces of a split at one character do not hold that character. *)
Lemma split_pieces_free (c0 : ascii) (s : string) :
  Forall (fun piece => every (fun c => negb (Ascii.eqb c0 c)) piece = true)
         (split (String c0 "") s).
Proof.
  unfold split. induction s as [|c s IH]; [now repeat constructor|].
  cbn [split_from startswith String.length Nat.sub].
  destruct (Ascii.eqb c0 c) eqn:E; cbn [andb].
  - destruct s; now constructor.
  - destruct (split_from (String c0 "") 0 s) as [|piece rest] eqn:Es;
      [now apply split_from_not_nil in Es|].
    inversion IH as [|? ? Hpiece Hrest]; subst.
    constructor; [|exact Hrest]. cbn [every]. now rewrite E, Hpiece.
Qed.

(** Lines of white space join to white space. *)
Lemma all_space_lines (lines : list string) :
  Forall (fun line => all_space line = true) lines ->
  all_space (String.concat nl lines) = true.
Proof.
  induction lines as [|line rest IH]; intros Hall; [reflexivity|].
  inversion Hall as [|? ? Hline Hrest]; subst.
  destruct rest as [|line' rest]; [exact Hline|].
  change (String.concat nl (line :: line' :: rest))
    with (line ++ nl ++ String.concat nl (line' :: rest)).
  rewrite (all_space_app _ _ Hline). exact (IH Hrest).
Qed.

Lemma newline_code (c : ascii) : Ascii.eqb "010" c = true -> code c = 10%N.
Proof. intros E. apply Ascii.eqb_eq in E as <-. reflexivity. Qed.

Lemma not_newline (c : ascii) : code c <> 10%N -> negb (Ascii.eqb "010" c) = true.
Proof.
  intros Hc. destruct (Ascii.eqb "010" c) eqn:E; [|reflexivity].
  now apply newline_code in E.
Qed.

(** A white-space character is the line break or holds none. *)
Lemma starts_with_space_newline (s r : string) :
  starts_with_space s r ->
  exists a, s = a ++ r /\ all_space a = true
            /\ (a = nl \/ every (fun c => negb (Ascii.eqb "010" c)) a = true).
Proof.
  intros [c1 r' E1|c1 c2 r' E1 E2|c1 c2 c3 r' E1 E2 E3].
  - exists (String c1 ""). split; [reflexivity|]. split; [cbn [all_space]; now rewrite E1|].
    destruct (Ascii.eqb "010" c1) eqn:E.
    + left. apply Ascii.eqb_eq in E as <-. reflexivity.
    + right. cbn [every]. now rewrite E.
  - exists (String c1 (String c2 "")). split; [reflexivity|].
    split; [cbn [all_space]; now rewrite E1, E2|]. right.
    unfold space2 in E2. apply andb_true_iff in E2 as [H1 H2].
    apply N.eqb_eq in H1. apply orb_true_iff in H2.
    cbn [every]. rewrite !not_newline; [reflexivity| |lia].
    destruct H2 as [H2|H2]; apply N.eqb_eq in H2; lia.
  - exists (String c1 (String c2 (String c3 ""))). split; [reflexivity|].
    split; [cbn [all_space]; now rewrite E1, E2, E3|]. right.
    assert (H123 : (128 <= code c1 /\ 128 <= code c2 /\ 128 <= code c3)%N).
    { unfold space3 in E3. cbv zeta in E3.
      repeat match type of E3 with
             | (_ || _)%bool = true => apply orb_true_iff in E3 as [E3|E3]
             end;
        repeat match goal with
               | E : (_ && _)%bool = true |- _ => apply andb_true_iff in E as [? ?]
               | E : (_ || _)%bool = true |- _ => apply orb_true_iff in E as [?|?]
               | E : (_ =? _)%N = true |- _ => apply N.eqb_eq in E
               | E : (_ <=? _)%N = true |- _ => apply N.leb_le in E
               end; lia. }
    cbn [every]. rewrite !not_newline; [reflexivity|lia|lia|lia].
Qed.

(** The lines of white space are white space. *)
Lemma lines_of_all_space (s : string) :
  all_space s = true ->
  Forall (fun line => all_space line = true) (split nl s).
Proof.
  induction s as [s IH] using string_length_ind. intros Hs.
  destruct (all_space_cases s) as [->|[(_ & E & _)|(r & Hr & E)]].
  - now repeat constructor.
  - congruence.
  - destruct (starts_with_space_newline _ _ Hr) as (a & -> & Ha & Hnl).
    assert (Hr' : all_space r = true) by congruence.
    specialize (IH r (starts_with_space_length _ _ Hr) Hr').
    destruct Hnl as [->|Hfree].
    + pose proof (split_at_separator "010" "" r) as E0.
      change (String "010" "") with nl in E0. rewrite E0. now constructor.
    + pose proof (split_free_prefix "010" "" a r Hfree) as Hsplit.
      change (String "010" "") with nl in Hsplit. rewrite Hsplit.
      destruct (split nl r) as [|piece rest] eqn:Er;
        [now apply split_not_nil in Er|].
      inversion IH as [|? ? Hpiece Hrest]; subst.
      constructor; [|exact Hrest]. now rewrite (all_space_app _ _ Ha).
Qed.

End StripFacts.

(** ** Further properties: the sentences of the batch mode *)

Section Sentences.
Import PyStr PyStrFacts StripFacts.

Lemma sentences_of_stripped (batch_text : string) :
  Forall (fun sentence =>
            strip sentence = sentence
            /\ truthy sentence = true
            /\ every (fun c => negb (Ascii.eqb "010" c)) sentence = true)
         (sentences_of batch_text).
Proof.
  unfold sentences_of.
  pose proof (split_pieces_free "010" batch_text) as Hfree.
  change (String "010" "") with nl in Hfree.
  induction (split nl batch_text) as [|line lines IH]; [constructor|].
  inversion Hfree as [|? ? Hline Hlines]; subst.
  cbn [filter]. destruct (truthy (strip line)) eqn:E; [|exact (IH Hlines)].
  cbn [map]. constructor; [|exact (IH Hlines)].
  split; [apply strip_idempotent|]. split; [exact E|].
  apply every_strip, Hline.
Qed.

(** X1: every sentence the batch mode evaluates is stripped (stripping it
    again changes nothing), is not empty and holds no line break. *)
Theorem sentences_are_stripped_lines (batch_text : string) :
  Forall (fun sentence =>
            strip sentence = sentence
            /\ truthy sentence = true
            /\ every (fun c => negb (Ascii.eqb "010" c)) sentence = true)
         (sentences_of batch_text).
Proof. exact (sentences_of_stripped batch_text). Qed.

Lemma filter_nil_all (A : Type) (f : A -> bool) (l : list A) :
  filter f l = [] -> Forall (fun x => f x = false) l.
Proof.
  induction l as [|x l IH]; [constructor|]. cbn [filter].
  destruct (f x) eqn:E; [discriminate|]. intros Hl. constructor; auto.
Qed.

Lemma batch_guard_sentences (batch_text : string) :
  truthy (strip batch_text)
  = match sentences_of batch_text with
    | [] => false
    | _ :: _ => true
    end.
Proof.
  destruct (truthy (strip batch_text)) eqn:Eguard.
  - destruct (sentences_of batch_text) as [|sentence rest] eqn:Es; [|reflexivity].
    exfalso. unfold sentences_of in Es. apply map_eq_nil in Es.
    apply filter_nil_all in Es.
    assert (Hall : Forall (fun line => all_space line = true) (split nl batch_text)).
    { eapply Forall_impl; [|exact Es]. intros line. apply strip_blank. }
    apply all_space_lines in Hall. unfold nl in Hall. rewrite join_split in Hall.
    apply strip_blank in Hall. congruence.
  - apply strip_blank, lines_of_all_space in Eguard.
    unfold sentences_of.
    induction (split nl batch_text) as [|line lines IH]; [reflexivity|].
    inversion Eguard as [|? ? Hline Hlines]; subst.
    cbn [filter]. apply strip_blank in Hline. rewrite Hline. exact (IH Hlines).
Qed.

(** X2: the guard of the batch mode, [batch_text.strip()], holds exactly
    when a sentence is left after the blank lines are dropped: the loop is
    never entered with an empty list, and never skipped when a line has
    text. *)
Theorem batch_guard_is_some_sentence (batch_text : string) :
  truthy (strip batch_text)
  = match sentences_of batch_text with
    | [] => false
    | _ :: _ => true
    end.
Proof. exact (batch_guard_sentences batch_text). Qed.

End Sentences.

(** ** Further properties: the history table *)

Section HistoryTable.

Lemma insert_row_permutation (r : nat * EvaluationRecord)
      (rows : list (nat * EvaluationRecord)) :
  Permutation (insert_row r rows) (r :: rows).
Proof.
  induction rows as [|r' rows IH]; [reflexivity|]. cbn [insert_row].
  destruct (String.leb (timestamp (snd r')) (timestamp (snd r))); [reflexivity|].
  rewrite IH. apply perm_swap.
Qed.

Lemma sort_values_permutation (h : list EvaluationRecord) :
  Permutation (sort_values h) (combine (seq 0 (List.length h)) h).
Proof.
  unfold sort_values. induction (combine (seq 0 (List.length h)) h) as [|r rows IH];
    [reflexivity|].
  cbn [fold_right]. rewrite insert_row_permutation. now constructor.
Qed.

Lemma insert_row_sorted (r : nat * EvaluationRecord)
      (rows : list (nat * EvaluationRecord)) :
  Sorted later_first rows -> Sorted later_first (insert_row r rows).
Proof.
  induction rows as [|r' rows IH]; intros Hs; [now repeat constructor|].
  cbn [insert_row].
  destruct (String.leb (timestamp (snd r')) (timestamp (snd r))) eqn:E.
  - constructor; [exact Hs|]. now constructor.
  - inversion Hs as [|? ? Hrows Hhd]; subst.
    constructor; [exact (IH Hrows)|].
    assert (Hr : later_first r' r).
    { unfold later_first.
      destruct (String.leb_total (timestamp (snd r')) (timestamp (snd r)));
        congruence. }
    destruct rows as [|r'' rows]; cbn [insert_row]; [now constructor|].
    destruct (String.leb (timestamp (snd r'')) (timestamp (snd r)));
      constructor; [exact Hr|].
    now inversion Hhd.
Qed.

Lemma sort_values_sorted (h : list EvaluationRecord) :
  Sorted later_first (sort_values h).
Proof.
  unfold sort_values. induction (combine (seq 0 (List.length h)) h) as [|r rows IH];
    [constructor|].
  cbn [fold_right]. now apply insert_row_sorted.
Qed.

Lemma combine_seq_snd (A : Type) (l : list A) (start : nat) :
  map snd (combine (seq start (List.length l)) l) = l.
Proof.
  revert start. induction l as [|x l IH]; intros start; [reflexivity|].
  cbn. now rewrite IH.
Qed.

Lemma combine_seq_fst (A : Type) (l : list A) (start : nat) :
  map fst (combine (seq start (List.length l)) l) = seq start (List.length l).
Proof.
  revert start. induction l as [|x l IH]; intros start; [reflexivity|].
  cbn. now rewrite IH.
Qed.

Lemma combine_seq_nth (A : Type) (l : list A) (start : nat) :
  Forall (fun r => start <= fst r /\ nth_error l (fst r - start) = Some (snd r))
         (combine (seq start (List.length l)) l).
Proof.
  revert start. induction l as [|x l IH]; intros start; [constructor|].
  cbn [List.length seq combine]. constructor.
  - cbn [fst snd]. split; [lia|]. now rewrite Nat.sub_diag.
  - eapply Forall_impl; [|exact (IH (S start))].
    intros [idx row] [Hle Hnth]. cbn [fst snd] in *. split; [lia|].
    replace (idx - start) with (S (idx - S start)) by lia. exact Hnth.
Qed.

Lemma rows_shown_rows (rows : list (nat * EvaluationRecord)) :
  rows_shown (map (fun r => st_history_row (fst r) (snd r)) rows) = rows.
Proof.
  induction rows as [|[idx row] rows IH]; [reflexivity|].
  cbn. now rewrite IH.
Qed.

Lemma rows_shown_history (s : session_state) :
  rows_shown (show_history s) = sort_values (history s).
Proof.
  unfold show_history. destruct (history s) as [|item h] eqn:Eh; [reflexivity|].
  cbn [rows_shown]. apply rows_shown_rows.
Qed.

(** X3: the history table shows every record of the history exactly once,
    none else, and no row stands before a row with a later time stamp. *)
Theorem history_table_is_sorted_history (s : session_state) :
  Permutation (map snd (rows_shown (show_history s))) (history s)
  /\ Sorted later_first (rows_shown (show_history s)).
Proof.
  rewrite rows_shown_history. split; [|apply sort_values_sorted].
  rewrite (Permutation_map snd (sort_values_permutation (history s))).
  now rewrite combine_seq_snd.
Qed.

(** X4: the rows of the history table carry pairwise distinct indices, from
    which the keys of their widgets are built, and the index of a row is the
    place of its record in the history. *)
Theorem history_table_keys (s : session_state) :
  NoDup (map fst (rows_shown (show_history s)))
  /\ Forall (fun r => nth_error (history s) (fst r) = Some (snd r))
            (rows_shown (show_history s)).
Proof.
  rewrite rows_shown_history. split.
  - eapply Permutation_NoDup.
    + symmetry. apply (Permutation_map fst (sort_values_permutation (history s))).
    + rewrite combine_seq_fst. apply seq_NoDup.
  - eapply Permutation_Forall.
    + symmetry. apply sort_values_permutation.
    + eapply Forall_impl; [|exact (combine_seq_nth _ (history s) 0)].
      intros [idx row] [_ Hnth]. cbn [fst snd] in *.
      now rewrite Nat.sub_0_r in Hnth.
Qed.

End HistoryTable.

(** ** Further properties: the records of the history *)

Section Records.
Context `{Outside}.
Import PyStr PyStrFacts StripFacts.

Lemma getitem_value (d : list (string * string)) (key value : string) :
  getitem d key = Some value -> In value (map snd d).
Proof.
  induction d as [|[k v] d IH]; [discriminate|]. cbn [getitem map snd].
  destruct (String.eqb k key); [intros [= <-]; now left|].
  intros E. right. exact (IH E).
Qed.

Lemma requests_emit (e : event) (m : machine) :
  is_generate e = false -> requests (screen (emit e m)) = requests (screen m).
Proof.
  intros He. cbn [emit screen]. rewrite requests_app. cbn [requests filter].
  rewrite He. apply app_nil_r.
Qed.

(** What one call does to the history and to the requests *)
Lemma evaluate_text_added (text model_name level : string) (m : machine) :
  let m' := snd (evaluate_text text model_name level m) in
  exists added,
    history (session m') = (history (session m) ++ added)%list
    /\ Forall (fun r => original r = text /\ model r = model_name) added
    /\ List.length added <= 1
    /\ List.length (requests (screen m')) = S (List.length (requests (screen m)))
    /\ selected_model (session m') = selected_model (session m).
Proof.
  destruct (generate_content model_name (main_prompt text level) (world m))
    as [[response_text|str_e] w] eqn:E.
  - rewrite (evaluate_text_returned _ _ _ _ _ _ E). cbn [snd session screen].
    eexists. split; [reflexivity|]. split; [now repeat constructor|].
    split; [cbn; lia|]. split; [|reflexivity].
    rewrite requests_app, length_app. cbn. lia.
  - rewrite (evaluate_text_raised _ _ _ _ _ _ E). cbn [snd session screen].
    exists []. split; [now rewrite app_nil_r|]. split; [constructor|].
    split; [cbn; lia|]. split; [|reflexivity].
    rewrite requests_app, length_app. cbn. lia.
Qed.

(** What the loop of the batch mode does to the history and to the
    requests, whether the model is found or not *)
Lemma batch_loop_added (sentences : list string) :
  forall (total i : nat) (results : list (string * string)) (m : machine),
    let m' := fst (batch_loop total i sentences results m) in
    exists added,
      history (session m') = (history (session m) ++ added)%list
      /\ Forall (fun r =>
                   In (original r) sentences
                   /\ getitem MODEL_OPTIONS (selected_model (session m))
                      = Some (model r)) added
      /\ List.length added + List.length (requests (screen m))
         <= List.length (requests (screen m')).
Proof.
  induction sentences as [|sentence rest IH]; intros total i results m.
  - exists []. cbn. rewrite app_nil_r. repeat split; [constructor|lia].
  - cbn [batch_loop].
    change (session (emit (st_progress_bar (i + 1) total) m)) with (session m).
    destruct (getitem MODEL_OPTIONS (selected_model (session m)))
      as [model_name|] eqn:Emodel.
    + pose proof (evaluate_text_added sentence model_name "Concise"
                    (emit (st_progress_bar (i + 1) total) m))
        as (added1 & Hh1 & Hall1 & Hlen1 & Hreq1 & Hsel1).
      destruct (evaluate_text sentence model_name "Concise"
                  (emit (st_progress_bar (i + 1) total) m)) as [fb m1].
      cbn [snd] in Hh1, Hlen1, Hreq1, Hsel1.
      change (session (emit (st_progress_bar (i + 1) total) m))
        with (session m) in Hh1, Hsel1.
      rewrite requests_emit in Hreq1 by reflexivity.
      destruct (IH total (S i) (results ++ [(sentence, fb)])%list m1)
        as (added2 & Hh2 & Hall2 & Hreq2).
      exists (added1 ++ added2)%list. split; [|split].
      * now rewrite Hh2, Hh1, app_assoc.
      * apply Forall_app. split.
        -- eapply Forall_impl; [|exact Hall1]. intros r [Hr1 Hr2].
           split; [left; now symmetry|]. now rewrite Hr2.
        -- eapply Forall_impl; [|exact Hall2]. intros r [Hr1 Hr2].
           split; [now right|]. rewrite Hsel1, Emodel in Hr2. exact Hr2.
      * rewrite length_app. lia.
    + exists []. cbn [fst session]. rewrite app_nil_r.
      split; [reflexivity|]. split; [constructor|].
      rewrite requests_emit by reflexivity. cbn. lia.
Qed.

(** What one action of the user does to the history and to the requests:
    the history is kept or emptied, then grows by well-formed records, no
    more of them than requests were sent. *)
Lemma step_added (a : action) (m : machine) :
  exists kept added,
    history (session (step a m)) = (kept ++ added)%list
    /\ (kept = history (session m) \/ kept = [])
    /\ Forall well_formed added
    /\ List.length added + List.length (requests (screen m))
       <= List.length (requests (screen (step a m))).
Proof.
  assert (Hsame : forall m' : machine,
             history (session m') = history (session m) ->
             List.length (requests (screen m)) <= List.length (requests (screen m')) ->
             exists kept added,
               history (session m') = (kept ++ added)%list
               /\ (kept = history (session m) \/ kept = [])
               /\ Forall well_formed added
               /\ List.length added + List.length (requests (screen m))
                  <= List.length (requests (screen m'))).
  { intros m' Hh Hr. exists (history (session m)), [].
    rewrite app_nil_r. repeat split; auto. }
  destruct a as [user_text|batch_text| |label|level|on]; cbn [step].
  - unfold analyze_text.
    destruct (truthy (strip user_text)) eqn:Etext.
    + destruct (getitem MODEL_OPTIONS (selected_model (session m)))
        as [model_name|] eqn:Emodel; [|apply Hsame; [reflexivity|cbn; lia]].
      pose proof (evaluate_text_added user_text model_name
                    (feedback_level (session m)) m)
        as (added & Hh & Hall & Hlen & Hreq & _).
      destruct (evaluate_text user_text model_name (feedback_level (session m)) m)
        as [fb m1].
      cbn [snd fst] in *. exists (history (session m)), added.
      split; [exact Hh|]. split; [now left|]. split.
      * eapply Forall_impl; [|exact Hall]. intros r [Hr1 Hr2]. split.
        -- now rewrite Hr1.
        -- rewrite Hr2. exact (getitem_value _ _ _ Emodel).
      * rewrite requests_emit by reflexivity. cbn [set_session screen]. lia.
    + apply Hsame; [reflexivity|]. cbn [fst]. rewrite requests_emit by reflexivity. lia.
  - unfold batch_analyze.
    destruct (truthy (strip batch_text)) eqn:Etext.
    + set (sentences := sentences_of batch_text).
      set (total := List.length sentences).
      set (m0 := emit (st_progress_bar 0 total) m).
      pose proof (batch_loop_added sentences total 0 [] m0)
        as (added & Hh & Hall & Hreq).
      assert (Hwf : Forall well_formed added).
      { eapply Forall_impl; [|exact Hall]. intros r [Hr1 Hr2]. split.
        - pose proof (sentences_of_stripped batch_text) as Hs.
          rewrite Forall_forall in Hs. destruct (Hs _ Hr1) as (E1 & E2 & _).
          now rewrite E1.
        - exact (getitem_value _ _ _ Hr2). }
      unfold m0 in Hreq at 1. rewrite requests_emit in Hreq by reflexivity.
      change (history (session m0)) with (history (session m)) in Hh.
      destruct (batch_loop total 0 sentences [] m0) as [m2 [e|results]];
        cbn [fst] in *; exists (history (session m)), added.
      * repeat split; auto.
      * split; [exact Hh|]. split; [now left|]. split; [exact Hwf|].
        cbn [emit_all screen]. rewrite requests_app. cbn [requests filter is_generate].
        now rewrite app_nil_r.
    + apply Hsame; [reflexivity|]. cbn [fst]. rewrite requests_emit by reflexivity. lia.
  - exists [], []. split; [reflexivity|]. split; [now right|].
    split; [constructor|]. cbn [clear_history set_session screen List.length]. lia.
  - apply Hsame; [reflexivity|cbn [set_session screen]; lia].
  - apply Hsame; [reflexivity|cbn [set_session screen]; lia].
  - apply Hsame; [reflexivity|cbn [set_session screen]; lia].
Qed.

(** X5: whatever the user does, the records of the history stay
    well-formed: the text of each is not blank, and its model is one of the
    three identifiers of [MODEL_OPTIONS]. *)
Theorem history_records_well_formed (actions : list action) (m : machine) :
  Forall well_formed (history (session m)) ->
  Forall well_formed (history (session (run_actions actions m))).
Proof.
  revert m. induction actions as [|a actions IH]; intros m Hm; [exact Hm|].
  cbn [run_actions fold_left]. apply IH.
  destruct (step_added a m) as (kept & added & -> & [->| ->] & Hadded & _);
    apply Forall_app; split; auto.
Qed.

(** X6: the history never gains more records than requests are sent:
    after any actions, the records gained are at most as many as the
    requests made meanwhile. *)
Theorem records_at_most_requests (actions : list action) (m : machine) :
  List.length (history (session (run_actions actions m)))
  + List.length (requests (screen m))
  <= List.length (history (session m))
     + List.length (requests (screen (run_actions actions m))).
Proof.
  revert m. induction actions as [|a actions IH]; intros m; [cbn; lia|].
  cbn [run_actions fold_left]. specialize (IH (step a m)).
  fold (run_actions actions (step a m)) in IH |- *.
  destruct (step_added a m) as (kept & added & Hh & Hkept & _ & Hreq).
  rewrite Hh, length_app in IH.
  destruct Hkept as [-> | ->]; cbn [List.length] in IH; lia.
Qed.

Lemma evaluate_each_all_returned (model_name : string) :
  (forall model_id prompt w,
      exists response_text, fst (generate_content model_id prompt w) = Returned response_text) ->
  forall (sentences : list string) (total i : nat) (m : machine),
  exists added,
    history (session (snd (evaluate_each total i model_name sentences m)))
    = (history (session m) ++ added)%list
    /\ map original added = sentences
    /\ Forall (fun r => model r = model_name) added
    /\ fst (evaluate_each total i model_name sentences m)
       = map (fun r => (original r, strip (feedback r))) added.
Proof.
  intros Hret. induction sentences as [|sentence rest IH]; intros total i m.
  - exists []. cbn. now rewrite app_nil_r.
  - cbn [evaluate_each].
    set (m0 := emit (st_progress_bar (i + 1) total) m).
    destruct (generate_content model_name (main_prompt sentence "Concise") (world m0))
      as [[response_text|str_e] w] eqn:E.
    + rewrite (evaluate_text_returned _ _ _ _ _ _ E).
      match goal with
      | |- context [evaluate_each total (S i) model_name rest ?m1] =>
          destruct (IH total (S i) m1) as (added & Hh & Horig & Hmodel & Hrows);
          destruct (evaluate_each total (S i) model_name rest m1) as [rows m2]
      end.
      cbn [fst snd session history history_append] in *.
      exists (record_of (datetime_now w) sentence response_text model_name :: added).
      split; [now rewrite Hh, <- app_assoc|].
      split; [cbn; now rewrite Horig|].
      split; [now constructor|]. cbn. now rewrite Hrows.
    + destruct (Hret model_name (main_prompt sentence "Concise") (world m0)) as [t Ht].
      rewrite E in Ht. discriminate Ht.
Qed.

Lemma evaluate_each_all_raised (model_name : string) :
  (forall model_id prompt w,
      exists str_e, fst (generate_content model_id prompt w) = Raised str_e) ->
  forall (sentences : list string) (total i : nat) (m : machine),
    session (snd (evaluate_each total i model_name sentences m)) = session m
    /\ map fst (fst (evaluate_each total i model_name sentences m)) = sentences
    /\ Forall (fun row => startswith "⚠️ Error processing request: " (snd row) = true)
              (fst (evaluate_each total i model_name sentences m)).
Proof.
  intros Hraise. induction sentences as [|sentence rest IH]; intros total i m.
  - cbn. repeat split. constructor.
  - cbn [evaluate_each].
    set (m0 := emit (st_progress_bar (i + 1) total) m).
    destruct (generate_content model_name (main_prompt sentence "Concise") (world m0))
      as [[response_text|str_e] w] eqn:E.
    + destruct (Hraise model_name (main_prompt sentence "Concise") (world m0)) as [e He].
      rewrite E in He. discriminate He.
    + rewrite (evaluate_text_raised _ _ _ _ _ _ E).
      match goal with
      | |- context [evaluate_each total (S i) model_name rest ?m1] =>
          destruct (IH total (S i) m1) as (Hs & Hfst & Herr);
          destruct (evaluate_each total (S i) model_name rest m1) as [rows m2]
      end.
      cbn [fst snd session map] in *. split; [exact Hs|].
      split; [now rewrite Hfst|]. constructor; [|exact Herr].
      cbn [snd]. apply startswith_self.
Qed.

(** X7: when the service answers every request, the batch mode appends one
    record per sentence, in the order of the sentences, each with the
    sentence as its text and the chosen model; its table pairs every
    sentence with the stripped response. *)
Theorem batch_appends_every_sentence
        (batch_text model_name : string) (m : machine) :
  (forall model_id prompt w,
      exists response_text, fst (generate_content model_id prompt w) = Returned response_text) ->
  truthy (strip batch_text) = true ->
  getitem MODEL_OPTIONS (selected_model (session m)) = Some model_name ->
  exists added m2,
    batch_analyze batch_text m
    = (emit_all [st_success "✅ Analysis complete!";
                 st_dataframe (map (fun r => (original r, strip (feedback r))) added)]
                m2, None)
    /\ history (session m2) = (history (session m) ++ added)%list
    /\ map original added = sentences_of batch_text
    /\ Forall (fun r => model r = model_name) added.
Proof.
  intros Hret Htext Hmodel.
  set (sentences := sentences_of batch_text).
  set (total := List.length sentences).
  set (m0 := emit (st_progress_bar 0 total) m).
  destruct (evaluate_each_all_returned model_name Hret sentences total 0 m0)
    as (added & Hh & Horig & Hmod & Hrows).
  exists added, (snd (evaluate_each total 0 model_name sentences m0)).
  split; [|repeat split; assumption].
  unfold batch_analyze. rewrite Htext. fold sentences. fold total. fold m0.
  rewrite (batch_loop_evaluate_each model_name sentences total 0 [] m0 Hmodel).
  cbn [app]. now rewrite Hrows.
Qed.

(** X8: when the service fails on every request, the batch mode still goes
    through all the sentences and ends without an exception: the session is
    left as it was, and the table pairs every sentence with an error
    text. *)
Theorem batch_survives_failures
        (batch_text model_name : string) (m : machine) :
  (forall model_id prompt w,
      exists str_e, fst (generate_content model_id prompt w) = Raised str_e) ->
  truthy (strip batch_text) = true ->
  getitem MODEL_OPTIONS (selected_model (session m)) = Some model_name ->
  exists rows m2,
    batch_analyze batch_text m
    = (emit_all [st_success "✅ Analysis complete!"; st_dataframe rows] m2, None)
    /\ session m2 = session m
    /\ map fst rows = sentences_of batch_text
    /\ Forall (fun row => startswith "⚠️ Error processing request: " (snd row) = true)
              rows.
Proof.
  intros Hraise Htext Hmodel.
  set (sentences := sentences_of batch_text).
  set (total := List.length sentences).
  set (m0 := emit (st_progress_bar 0 total) m).
  destruct (evaluate_each_all_raised model_name Hraise sentences total 0 m0)
    as (Hs & Hfst & Herr).
  exists (fst (evaluate_each total 0 model_name sentences m0)),
    (snd (evaluate_each total 0 model_name sentences m0)).
  split; [|repeat split; assumption].
  unfold batch_analyze. rewrite Htext. fold sentences. fold total. fold m0.
  now rewrite (batch_loop_evaluate_each model_name sentences total 0 [] m0 Hmodel).
Qed.

End Records.

(** ** Further properties: ratings that are no numbers *)

Section NotANumber.
Import PyFloat.

Lemma add_nan_l (x : float) : add S754_nan x = S754_nan.
Proof. reflexivity. Qed.

Lemma add_nan_r (x : float) : add x S754_nan = S754_nan.
Proof. now destruct x. Qed.

Lemma sum_from_nan (xs : list float) : fold_left add xs S754_nan = S754_nan.
Proof. induction xs as [|x xs IH]; [reflexivity|]. cbn. exact IH. Qed.

Lemma sum_with_nan (xs : list float) (acc : float) :
  In S754_nan xs -> fold_left add xs acc = S754_nan.
Proof.
  revert acc. induction xs as [|x xs IH]; intros acc Hin; [destruct Hin|].
  cbn [fold_left]. destruct Hin as [->|Hin].
  - rewrite add_nan_r. apply sum_from_nan.
  - now apply IH.
Qed.

(** X10: [float] reads "nan", so a response with "Overall Rating: nan/10"
    puts a NaN among the ratings; one such rating anywhere in the history
    makes the average shown a NaN. *)
Theorem nan_rating_spoils_average (h : list EvaluationRecord) :
  In S754_nan (collect_ratings h) ->
  In (st_metric "Average Rating" (out_of_ten S754_nan)) (fst (performance_metrics h))
  /\ feedback_rating "Overall Rating: nan/10" = Some S754_nan.
Proof.
  intros Hin. split; [|reflexivity].
  unfold performance_metrics.
  destruct (collect_ratings h) as [|rating rest] eqn:Er; [destruct Hin|].
  unfold truediv.
  destruct (Z.of_nat (List.length (rating :: rest)) =? 0)%Z eqn:E.
  - apply Z.eqb_eq in E. cbn [List.length] in E. lia.
  - unfold sum. rewrite (sum_with_nan _ _ Hin). cbn [max SFdiv].
    right. now left.
Qed.

End NotANumber.

(** ** Further properties: the runs of the scripts *)

Section ScriptRuns.
Context `{Outside}.
Import PyStr PyStrFacts StripFacts.


Lemma batch_analyze_no_exception (batch_text model_name : string) (m : machine) :
  getitem MODEL_OPTIONS (selected_model (session m)) = Some model_name ->
  snd (batch_analyze batch_text m) = None.
Proof.
  intros Hmodel. unfold batch_analyze.
  destruct (truthy (strip batch_text)); [|reflexivity].
  now rewrite (batch_loop_evaluate_each
                 model_name (sentences_of batch_text)
                 (List.length (sentences_of batch_text)) 0 []
                 (emit (st_progress_bar 0 (List.length (sentences_of batch_text))) m)
                 Hmodel).
Qed.

Lemma batch_analyze_selected_model (batch_text : string) (m : machine) :
  selected_model (session (fst (batch_analyze batch_text m)))
  = selected_model (session m).
Proof.
  unfold batch_analyze. destruct (truthy (strip batch_text)); [|reflexivity].
  set (sentences := sentences_of batch_text).
  generalize (List.length sentences) as total. intros total.
  change (selected_model (session m))
    with (selected_model (session (emit (st_progress_bar 0 total) m))).
  generalize (emit (st_progress_bar 0 total) m) as m0.
  generalize (@nil (string * string)) as results. generalize 0 as i.
  clearbody sentences.
  induction sentences as [|sentence rest IH]; intros i results m0; [reflexivity|].
  cbn [batch_loop].
  change (session (emit (st_progress_bar (i + 1) total) m0)) with (session m0).
  destruct (getitem MODEL_OPTIONS (selected_model (session m0))) as [model_name|];
    [|reflexivity].
  pose proof (evaluate_text_effect sentence model_name "Concise"
                (emit (st_progress_bar (i + 1) total) m0)) as (_ & Hsel & _).
  destruct (evaluate_text sentence model_name "Concise"
              (emit (st_progress_bar (i + 1) total) m0)) as [fb m1].
  cbn [snd] in Hsel. rewrite (IH (S i) _ m1). exact Hsel.
Qed.

(** With a model that is found, the second and the third tab go to the
    end. *)
Lemma tabs_2_3_finish (i : inputs) (caption : option string) (m : machine)
      (model_name : string) :
  getitem MODEL_OPTIONS (selected_model (session m)) = Some model_name ->
  exists m', tabs_2_3 i caption m = ran m' caption finished
             /\ (batch_clicked i = false ->
                 m' = emit_all (fst (tab3 (session m))) m).
Proof.
  intros Hmodel. unfold tabs_2_3.
  destruct (batch_clicked i).
  - pose proof (batch_analyze_no_exception (batch_text i) model_name m Hmodel) as Hno.
    destruct (batch_analyze (batch_text i) m) as [m1 e]. cbn [snd] in Hno. subst e.
    pose proof (tab3_no_exception (session m1)) as Hno3.
    destruct (tab3 (session m1)) as [drawn e3]. cbn [snd] in Hno3. subst e3.
    eexists. split; [reflexivity|discriminate].
  - pose proof (tab3_no_exception (session m)) as Hno3.
    destruct (tab3 (session m)) as [drawn e3]. cbn [snd fst] in *. subst e3.
    eexists. split; [reflexivity|reflexivity].
Qed.

Lemma tab1_results_exception (s : session_state) :
  snd (tab1_results s)
  = match last_feedback s with
    | Some fb => if marker_without_colon fb then Some IndexError else None
    | None => None
    end.
Proof.
  unfold tab1_results. destruct (last_feedback s) as [fb|]; [|reflexivity].
  pose proof (display_feedback_exception fb) as E.
  destruct (display_feedback fb) as [drawn e]. exact E.
Qed.



(** The part of a run after the button of the first tab, on a machine whose
    model is found: the results column raises or the run goes to its end. *)
Lemma after_first_button (i : inputs) (caption : option string) (m : machine)
      (model_name : string) :
  getitem MODEL_OPTIONS (selected_model (session m)) = Some model_name ->
  exists m',
    match tab1_results (session m) with
    | (drawn, Some e) => ran (emit_all drawn m) caption (raised e)
    | (drawn, None) => tabs_2_3 i caption (emit_all drawn m)
    end
    = ran m' caption
          match last_feedback (session m) with
          | Some fb => if marker_without_colon fb then raised IndexError else finished
          | None => finished
          end.
Proof.
  intros Hmodel. pose proof (tab1_results_exception (session m)) as E.
  destruct (tab1_results (session m)) as [drawn e]. cbn [snd] in E.
  destruct (last_feedback (session m)) as [fb|];
    [destruct (marker_without_colon fb)|]; subst e.
  - eexists. reflexivity.
  - destruct (tabs_2_3_finish i caption (emit_all drawn m) model_name Hmodel)
      as (m' & -> & _). now exists m'.
  - destruct (tabs_2_3_finish i caption (emit_all drawn m) model_name Hmodel)
      as (m' & -> & _). now exists m'.
Qed.

(** X11: how a run of [main.py] ends.  Without a key, or with an empty one,
    it stops on the error of line 11.  With a key and a label of
    [MODEL_OPTIONS] in the select box it ends in [st.rerun()] exactly when
    the first button was clicked on a text that is not blank; otherwise it
    ends in [IndexError] exactly when the last feedback kept in the session
    holds "Overall Rating" without "Overall Rating:"; otherwise it reaches
    its last line.  No run ends in [KeyError] or in a division by zero. *)
Theorem script_run_endings (i : inputs) (st : stored_state) (w : World)
        (seen : list event) :
  (key_missing (api_key i) = true ->
   script_run i st w seen = halted missing_key_error)
  /\ (forall model_name,
         key_missing (api_key i) = false ->
         getitem MODEL_OPTIONS (model_choice i) = Some model_name ->
         exists m caption,
           script_run i st w seen
           = ran m caption
                 (if analyze_clicked i && truthy (strip (user_text i))
                  then rerun_asked
                  else match stored_last_feedback st with
                       | Some fb =>
                           if marker_without_colon fb
                           then raised IndexError else finished
                       | None => finished
                       end)).
Proof.
  split; [intros Hkey; unfold script_run; now rewrite Hkey|].
  intros model_name Hkey Hmodel. unfold script_run. rewrite Hkey.
  set (s := set_dark_mode _ _).
  set (m := {| world := w; session := s; screen := seen |}).
  assert (Hm : getitem MODEL_OPTIONS (selected_model (session m)) = Some model_name)
    by exact Hmodel.
  unfold tabs. destruct (analyze_clicked i); cbn [andb].
  - unfold analyze_text. destruct (truthy (strip (user_text i))) eqn:Etext.
    + rewrite Hm.
      destruct (evaluate_text (user_text i) model_name (feedback_level (session m)) m)
        as [fb m1].
      eexists. eexists. reflexivity.
    + destruct (after_first_button
                  i (last_evaluated s)
                  (emit (st_warning "⚠️ Please enter text before clicking 'Analyze Text'.") m)
                  model_name Hm) as [m' E].
      exists m'. eexists. exact E.
  - destruct (after_first_button i (last_evaluated s) m model_name Hm) as [m' E].
    exists m'. eexists. exact E.
Qed.

(** X12: a last feedback that holds "Overall Rating" without "Overall
    Rating:" blocks the page.  Unless a new text is analysed, a run draws the
    heading of the results column and ends there in [IndexError]: no request
    is sent, the second button does nothing even when clicked, and neither
    the history nor the metrics are drawn.  Emptying the history does not
    help, since it leaves the last feedback where it is. *)
Theorem unreadable_marker_blocks_page (i : inputs) (st : stored_state)
        (w : World) (seen : list event) (fb : string) :
  key_missing (api_key i) = false ->
  analyze_clicked i && truthy (strip (user_text i)) = false ->
  stored_last_feedback st = Some fb ->
  marker_without_colon fb = true ->
  let s := set_dark_mode (dark_choice i)
             (set_feedback_level (level_choice i)
                (set_selected_model (model_choice i) (init_session_state st))) in
  script_run i st w seen
  = ran {| world := w;
           session := s;
           screen := (seen
                      ++ (if analyze_clicked i
                          then [st_warning "⚠️ Please enter text before clicking 'Analyze Text'."]
                          else [])
                      ++ [st_subheader "📊 Evaluation Results"])%list |}
        (last_evaluated s) (raised IndexError)
  /\ stored_last_feedback (store (history_clear s)) = Some fb.
Proof.
  intros Hkey Hclick Hfb Hbad s. split; [|exact Hfb].
  unfold script_run. rewrite Hkey. fold s. unfold tabs.
  assert (Hdisplay : display_feedback fb = ([], Some IndexError)).
  { unfold marker_without_colon in Hbad. apply andb_true_iff in Hbad as [Hs Hl].
    apply negb_true_iff in Hl. exact (proj1 (display_feedback_raises fb Hs Hl)). }
  destruct (analyze_clicked i); cbn [andb] in Hclick.
  - unfold analyze_text. rewrite Hclick.
    unfold tab1_results. cbn [emit session].
    change (last_feedback s) with (stored_last_feedback st). rewrite Hfb, Hdisplay.
    cbn [andb]. unfold emit_all, emit. cbn [screen world session].
    now rewrite <- app_assoc.
  - unfold tab1_results. cbn [session].
    change (last_feedback s) with (stored_last_feedback st). rewrite Hfb, Hdisplay.
    reflexivity.
Qed.


(** X14: [code.py] sends one request in a run exactly when the key is set,
    its button was clicked and the text is not blank, and none otherwise;
    it then shows what [evaluate_text] returned, the stripped response or
    the error text; it never touches the session. *)
Theorem simple_script_requests (key : option string) (text : string)
        (clicked : bool) (m : machine) :
  let run := simple_script key text clicked m in
  let asked := negb (key_missing key) && clicked && truthy (strip text) in
  session (snd run) = session m
  /\ requests (screen (snd run))
     = (requests (screen m)
        ++ if asked then [generate "gemini-1.5-flash" (simple_prompt text)] else [])%list
  /\ (if asked
      then fst run
           = simple_feedback
               "✅ Feedback & Suggestions:"
               match fst (generate_content "gemini-1.5-flash" (simple_prompt text)
                                           (world m)) with
               | Returned response_text => strip response_text
               | Raised str_e => error_text str_e
               end
      else snd run = m).
Proof.
  unfold simple_script.
  destruct (key_missing key); cbn [negb andb];
    [now rewrite app_nil_r|].
  destruct clicked; cbn [andb]; [|now rewrite app_nil_r].
  destruct (truthy (strip text)); [|now rewrite app_nil_r].
  unfold simple_evaluate_text. cbn [emit world].
  destruct (generate_content "gemini-1.5-flash" (simple_prompt text) (world m))
    as [[response_text|str_e] w']; cbn [fst snd]; unfold set_world, emit;
    cbn [session screen]; rewrite requests_app; now repeat split.
Qed.

End ScriptRuns.

Section Widgets.
Context `{Outside}.

(** X15: [display_feedback] draws all or nothing.  On a text that holds
    "Overall Rating" without "Overall Rating:" it raises [IndexError] with
    nothing drawn; on every other text it ends without an exception and the
    last thing it draws is the expander with the whole text, below the
    widgets of the rating, of which there are none when the text does not
    hold "Overall Rating". *)
Theorem display_feedback_all_or_nothing (fb : string) :
  if marker_without_colon fb
  then display_feedback fb = ([], Some IndexError)
  else exists widgets,
      display_feedback fb
      = ((widgets ++ [st_expander_write "📝 Detailed Feedback" fb])%list, None)
      /\ (PyStr.contains "Overall Rating" fb = false -> widgets = []).
Proof.
  pose proof (display_feedback_exception fb) as E. unfold marker_without_colon.
  destruct (PyStr.contains "Overall Rating" fb) eqn:Hshort;
    destruct (PyStr.contains "Overall Rating:" fb) eqn:Hlong; cbn [andb negb] in *.
  - unfold display_feedback in *. rewrite Hshort in *.
    destruct (rating_part fb) as [part|]; cbn [snd] in E; [|discriminate].
    eexists. split; [reflexivity|discriminate].
  - exact (proj1 (display_feedback_raises fb Hshort Hlong)).
  - exists []. split; [exact (proj1 (display_feedback_unmarked fb Hshort))|reflexivity].
  - exists []. split; [exact (proj1 (display_feedback_unmarked fb Hshort))|reflexivity].
Qed.

(** X16: the first and the third tab read the same rating.  A rating that
    the loop of the metrics takes from a feedback text is the one
    [display_feedback] shows for that text, as the first thing it draws;
    and for a text from which the loop takes no rating, [display_feedback]
    shows no rating either. *)
Theorem tabs_read_same_rating (fb : string) :
  match feedback_rating fb with
  | Some rating =>
      exists rest,
        display_feedback fb
        = (st_metric "Overall Rating" (out_of_ten rating) :: rest, None)
  | None =>
      forall value,
        ~ In (st_metric "Overall Rating" value) (fst (display_feedback fb))
  end.
Proof.
  unfold feedback_rating, display_feedback.
  destruct (PyStr.contains "Overall Rating" fb).
  - destruct (rating_part fb) as [part|].
    + destruct (parse_rating part) as [rating|]; cbn [rating_widgets app fst].
      * eexists. reflexivity.
      * intros value [E|[]]. discriminate.
    + intros value [].
  - intros value [E|[]]. discriminate.
Qed.

End Widgets.

(** ** The further properties at sample inputs *)

(** X5 at an analysis, a clearing and a batch of two sentences *)
Lemma history_records_well_formed_witness :
  Forall well_formed (history initial_session)
  /\ Forall well_formed
       (history
          (session
             (run_actions (H := answering)
                          [click_analyze "hello"; click_clear_history;
                           click_analyze_all ("a" ++ nl ++ " b ")]
                          (initial_machine answering 0)))).
Proof.
  split; [constructor|].
  apply (history_records_well_formed
           (H := answering)
           [click_analyze "hello"; click_clear_history;
            click_analyze_all ("a" ++ nl ++ " b ")]
           (initial_machine answering 0)).
  constructor.
Defined.

(** X7 at the world whose service answers *)
Lemma batch_appends_every_sentence_witness :
  (forall model_id prompt w,
      exists response_text,
        fst (generate_content (Outside := answering) model_id prompt w)
        = Returned response_text)
  /\ PyStr.truthy (PyStr.strip ("a" ++ nl ++ " b ")) = true
  /\ getitem MODEL_OPTIONS (selected_model initial_session) = Some "gemini-1.5-flash"
  /\ exists added m2,
      batch_analyze (H := answering) ("a" ++ nl ++ " b ") (initial_machine answering 0)
      = (emit_all [st_success "✅ Analysis complete!";
                   st_dataframe
                     (map (fun r => (original r, PyStr.strip (feedback r))) added)]
                  m2, None)
      /\ history (session m2) = (history initial_session ++ added)%list
      /\ map original added = sentences_of ("a" ++ nl ++ " b ")
      /\ Forall (fun r => model r = "gemini-1.5-flash") added.
Proof.
  assert (Hret : forall (model_id prompt : string) (w : World (Outside := answering)),
             exists response_text,
               fst (generate_content (Outside := answering) model_id prompt w)
               = Returned response_text)
    by (intros model_id prompt w; exists answer; reflexivity).
  split; [exact Hret|]. split; [reflexivity|]. split; [reflexivity|].
  exact (batch_appends_every_sentence
           (H := answering) ("a" ++ nl ++ " b ") "gemini-1.5-flash"
           (initial_machine answering 0) Hret eq_refl eq_refl).
Defined.

(** X8 at the world whose service is out of quota *)
Lemma batch_survives_failures_witness :
  (forall model_id prompt w,
      exists str_e,
        fst (generate_content (Outside := failing) model_id prompt w) = Raised str_e)
  /\ PyStr.truthy (PyStr.strip ("a" ++ nl ++ " b ")) = true
  /\ getitem MODEL_OPTIONS (selected_model initial_session) = Some "gemini-1.5-flash"
  /\ exists rows m2,
      batch_analyze (H := failing) ("a" ++ nl ++ " b ") (initial_machine failing 0)
      = (emit_all [st_success "✅ Analysis complete!"; st_dataframe rows] m2, None)
      /\ session m2 = initial_session
      /\ map fst rows = sentences_of ("a" ++ nl ++ " b ")
      /\ Forall (fun row =>
                   PyStr.startswith "⚠️ Error processing request: " (snd row) = true)
                rows.
Proof.
  assert (Hraise : forall (model_id prompt : string) (w : World (Outside := failing)),
             exists str_e,
               fst (generate_content (Outside := failing) model_id prompt w)
               = Raised str_e)
    by (intros model_id prompt w; exists "quota exceeded"; reflexivity).
  split; [exact Hraise|]. split; [reflexivity|]. split; [reflexivity|].
  exact (batch_survives_failures
           (H := failing) ("a" ++ nl ++ " b ") "gemini-1.5-flash"
           (initial_machine failing 0) Hraise eq_refl eq_refl).
Defined.

(** X10 at a history that ends in a rating of NaN *)
Lemma nan_rating_spoils_average_witness :
  In S754_nan (collect_ratings [rated_3; rated_nan])
  /\ In (st_metric "Average Rating" (out_of_ten S754_nan))
        (fst (performance_metrics [rated_3; rated_nan])).
Proof.
  assert (Hin : In S754_nan (collect_ratings [rated_3; rated_nan]))
    by (vm_compute; right; left; reflexivity).
  split; [exact Hin|].
  exact (proj1 (nan_rating_spoils_average [rated_3; rated_nan] Hin)).
Defined.

(** X11 at a first run without the key, and at one with the key and the
    first button clicked on "hello" *)
Lemma script_run_endings_witness :
  (key_missing (api_key (without_key sample_inputs)) = true
   /\ script_run (H := answering) (without_key sample_inputs) empty_store 0 []
      = halted missing_key_error)
  /\ (key_missing (api_key sample_inputs) = false
      /\ getitem MODEL_OPTIONS (model_choice sample_inputs) = Some "gemini-1.5-flash"
      /\ exists m caption,
          script_run (H := answering) sample_inputs empty_store 0 []
          = ran m caption rerun_asked).
Proof.
  split.
  - split; [reflexivity|].
    exact (proj1 (script_run_endings (H := answering) (without_key sample_inputs)
                                     empty_store 0 []) eq_refl).
  - split; [reflexivity|]. split; [reflexivity|].
    exact (proj2 (script_run_endings (H := answering) sample_inputs empty_store 0 [])
                 "gemini-1.5-flash" eq_refl eq_refl).
Defined.

(** X12 at a session whose last feedback is "**Overall Rating**: 7/10",
    with the second button clicked *)
Lemma unreadable_marker_blocks_page_witness :
  key_missing (api_key sample_inputs) = false
  /\ marker_without_colon "**Overall Rating**: 7/10" = true
  /\ script_run (H := answering)
                {| api_key := Some "key";
                   model_choice := "Gemini 1.5 Flash (Fast)";
                   level_choice := "Detailed";
                   dark_choice := false;
                   user_text := "";
                   analyze_clicked := false;
                   batch_text := "a";
                   batch_clicked := true |}
                (store (set_last "**Overall Rating**: 7/10" "hello" initial_session))
                0 []
     = ran (emit (st_subheader "📊 Evaluation Results")
                 (set_session
                    (set_last "**Overall Rating**: 7/10" "hello" initial_session)
                    (initial_machine answering 0)))
           None (raised IndexError).
Proof.
  split; [reflexivity|]. split; [reflexivity|].
  exact (proj1 (unreadable_marker_blocks_page
                  (H := answering)
                  {| api_key := Some "key";
                     model_choice := "Gemini 1.5 Flash (Fast)";
                     level_choice := "Detailed";
                     dark_choice := false;
                     user_text := "";
                     analyze_clicked := false;
                     batch_text := "a";
                     batch_clicked := true |}
                  (store (set_last "**Overall Rating**: 7/10" "hello" initial_session))
                  0 [] "**Overall Rating**: 7/10"
                  eq_refl eq_refl eq_refl eq_refl)).
Defined.


(** X15 at "**Overall Rating**: 7/10" and at a text without a rating *)
Lemma display_feedback_all_or_nothing_witness :
  display_feedback (H := answering) "**Overall Rating**: 7/10" = ([], Some IndexError)
  /\ exists widgets,
      display_feedback (H := answering) "The text is fine."
      = ((widgets ++ [st_expander_write "📝 Detailed Feedback" "The text is fine."])%list,
         None)
      /\ (PyStr.contains "Overall Rating" "The text is fine." = false -> widgets = []).
Proof.
  split.
  - exact (display_feedback_all_or_nothing (H := answering) "**Overall Rating**: 7/10").
  - exact (display_feedback_all_or_nothing (H := answering) "The text is fine.").
Defined.

(** X16 at "Overall Rating: 7/10" and at a text without a rating *)
Lemma tabs_read_same_rating_witness :
  (feedback_rating "Overall Rating: 7/10" = Some (PyFloat.of_Z 7)
   /\ exists rest,
       display_feedback (H := answering) "Overall Rating: 7/10"
       = (st_metric "Overall Rating" (out_of_ten (PyFloat.of_Z 7)) :: rest, None))
  /\ (feedback_rating "The text is fine." = None
      /\ forall value,
          ~ In (st_metric "Overall Rating" value)
               (fst (display_feedback (H := answering) "The text is fine."))).
Proof.
  assert (Erated : feedback_rating "Overall Rating: 7/10" = Some (PyFloat.of_Z 7))
    by (vm_compute; reflexivity).
  pose proof (tabs_read_same_rating (H := answering) "Overall Rating: 7/10") as Wrated.
  rewrite Erated in Wrated.
  split; [split; [exact Erated|exact Wrated]|].
  split; [reflexivity|].
  exact (tabs_read_same_rating (H := answering) "The text is fine.").
Defined.
